(** * WhatsAuto webhook server: the conversation router

    A shallow embedding of the webhook server (the revision with
    per-agent conversation handles and the inactivity threshold) and
    the properties of its routing logic.

    The server talks to two external services: the Supabase table
    [conversation_states] and the conversational agent API.  Both are
    modelled by a world state (the table and the log of the calls made
    so far) and an environment that decides, call by call, whether a
    service answers and with what. *)

From Stdlib Require Import ZArith NArith List Bool String Ascii Lia.
From stdpp Require Import gmap list.

Set Warnings "-register-all".

(** ** JavaScript strings

    A JavaScript string is a sequence of UTF-16 code units.  String
    literals of the source are ASCII and are written [js "..."]. *)

Abbreviation code_unit := N (only parsing).
Abbreviation jsstring := (list N) (only parsing).

Definition js (s : string) : jsstring :=
  map N_of_ascii (list_ascii_of_string s).

(** The class [\s] of a regular expression without the [u] flag, which
    is also the set that [String.prototype.trim] strips: the WhiteSpace
    and LineTerminator code points, all in the basic plane. *)
Definition isWhiteSpace (c : code_unit) : bool :=
  ((9 <=? c) && (c <=? 13) (* \t \n \v \f \r *)
   || (c =? 32) || (c =? 0xa0) || (c =? 0x1680)
   || (0x2000 <=? c) && (c <=? 0x200a)
   || (c =? 0x2028) || (c =? 0x2029) || (c =? 0x202f)
   || (c =? 0x205f) || (c =? 0x3000) || (c =? 0xfeff))%N.

(** [s.replace(/[cls]/g, by)] for a one-character class: every code unit
    of the class is replaced, left to right. *)
Fixpoint replace_class (cls : code_unit -> bool) (by_ s : jsstring) : jsstring :=
  match s with
  | [] => []
  | c :: rest =>
      if cls c then by_ ++ replace_class cls by_ rest
      else c :: replace_class cls by_ rest
  end.

(** The class [[\s+-]]: white space, [+] and (last in the class, so
    literal) [-]. *)
Definition phone_separator (c : code_unit) : bool :=
  (isWhiteSpace c || (c =? 43) || (c =? 45))%N.

(** [rawPhone.replace(/[\s+-]/g, "")] *)
Definition normalize_phone (rawPhone : jsstring) : jsstring :=
  replace_class phone_separator [] rawPhone.

Fixpoint trimStart (s : jsstring) : jsstring :=
  match s with
  | [] => []
  | c :: rest => if isWhiteSpace c then trimStart rest else s
  end.

Definition trimEnd (s : jsstring) : jsstring := rev (trimStart (rev s)).

(** [s.trim()] *)
Definition trim (s : jsstring) : jsstring := trimEnd (trimStart s).

(** [!s] is false exactly for a non-empty string. *)
Definition truthy_string (s : jsstring) : bool :=
  match s with [] => false | _ :: _ => true end.

(** ** JSON values

    What [axios] hands over as [response.data], what a request body
    holds, and what the server forwards or stores without looking
    inside.  Numbers are kept as integers: the server only tests them
    for truthiness. *)
Inductive json :=
| JNull
| JBool (b : bool)
| JNum (n : Z)
| JStr (s : jsstring)
| JArr (items : list json)
| JObj (members : list (jsstring * json)).

(** JavaScript truthiness ([if (v)], [v && ...], [v || ...]). *)
Definition truthy (v : json) : bool :=
  match v with
  | JNull => false
  | JBool b => b
  | JNum n => negb (n =? 0)%Z
  | JStr s => truthy_string s
  | JArr _ | JObj _ => true
  end.

(** [!v] for a value that may be [undefined]. *)
Definition falsy (v : option json) : bool :=
  match v with
  | Some v => negb (truthy v)
  | None => true
  end.

(** [members[key]] of a parsed object: the last member of that name wins. *)
Fixpoint member (key : jsstring) (members : list (jsstring * json)) : option json :=
  match members with
  | [] => None
  | (k, v) :: rest =>
      match member key rest with
      | Some v' => Some v'
      | None => if decide (k = key) then Some v else None
      end
  end.

(** [v.key] for the two property names the server reads, [data] and
    [id]: only an object can have them; on any other non-null value the
    read gives [undefined]. *)
Definition prop (v : json) (key : jsstring) : option json :=
  match v with
  | JObj members => member key members
  | _ => None
  end.

(** [members] has a member [key] of its own. *)
Definition has_member (key : jsstring) (members : list (jsstring * json)) : bool :=
  match member key members with Some _ => true | None => false end.

(** Whether the conversion to a string of a template literal,
    [`${v}`], succeeds.  It throws a TypeError for an object that has a
    member [toString] of its own: a parsed value is never callable, and
    [valueOf], its own or the one of [Object.prototype], gives no
    primitive value either.  An array is joined, which converts each of
    its items ([null] to the empty string); any other object is
    ["[object Object]"]. *)
Fixpoint converts_to_string (v : json) : bool :=
  match v with
  | JArr items => forallb converts_to_string items
  | JObj members => negb (has_member (js "toString") members)
  | _ => true
  end.

(** The members of a request body that [JSON.stringify] writes for one
    property: none when the value is [undefined]. *)
Definition written {A} (field : json -> A) (value : option json) : list A :=
  match value with
  | Some v => [field v]
  | None => []
  end.

(** How a call ends: it returns a value, or it throws an error that
    nothing catches (here always a TypeError). *)
Inductive Completion (A : Type) :=
| Normal (value : A)
| Throw.

Arguments Normal {A} value.
Arguments Throw {A}.

(** ** Configuration constants *)

Definition INACTIVITY_THRESHOLD_MS : Z := 1 * 60 * 1000.

Definition CUSTOMER_SERVICE : jsstring := js "Customer Service".
Definition SALES : jsstring := js "Sales".

Definition AGENT_IDS : list (jsstring * jsstring) :=
  [ (CUSTOMER_SERVICE, js "948aad98-7c1a-4c07-830a-82125d85543c");
    (SALES, js "726fb1ca-dee1-4cfb-bba5-41e2cd3b032d") ].

(** [AGENT_IDS] is an object literal, so a read also finds the members
    of [Object.prototype]; all of them are truthy.  They are functions,
    which [JSON.stringify] leaves out of a request body, except
    [__proto__], the prototype itself, which has no enumerable member
    and is written as the empty object. *)
Definition Object_prototype_functions : list jsstring :=
  map js [ "constructor"; "__defineGetter__"; "__defineSetter__";
           "hasOwnProperty"; "__lookupGetter__"; "__lookupSetter__";
           "isPrototypeOf"; "propertyIsEnumerable"; "toString";
           "valueOf"; "toLocaleString" ]%string.

(** [AGENT_IDS[agentType]]: [None] is [undefined]; otherwise the value
    is truthy and the result is what a JSON body shows of it ([None]
    inside: the member is left out). *)
Definition AGENT_IDS_get (agentType : jsstring) : option (option json) :=
  match list_find (λ kv, kv.1 = agentType) AGENT_IDS with
  | Some (_, (_, id)) => Some (Some (JStr id))
  | None =>
      if decide (agentType = js "__proto__") then Some (Some (JObj []))
      else if decide (agentType ∈ Object_prototype_functions) then Some None
      else None
  end.

(** ** Reply texts *)

Definition MSG_CONNECTED_CS : jsstring :=
  js "Anda telah terhubung dengan Customer Service. Ketik 3, untuk memutuskan koneksi.".
Definition MSG_CONNECTED_SALES : jsstring :=
  js "Anda telah terhubung dengan Sales Team. Ketik 3, untuk memutuskan koneksi.".
Definition MSG_DISCONNECTED : jsstring :=
  js "Koneksi anda telah terputus. Silahkan pilih agent kami untuk keperluan anda. 1) Customer Service 2) Sales Team".
Definition MSG_SYSTEM_ERROR : jsstring :=
  js "Maaf, terjadi kesalahan sistem. Silahkan coba lagi nanti.".
Definition MSG_SELECT_AGENT : jsstring :=
  js "Apakah ada yang bisa kami bantu? Silahkan pilih agent kami untuk keperluan anda. 1) Customer Service 2) Sales Team".
Definition MSG_CANNOT_PROCESS : jsstring :=
  js "Maaf, kami tidak dapat memproses pesan Anda saat ini.".
Definition MSG_AGENT_ERROR : jsstring :=
  js "Terjadi kesalahan saat berkomunikasi dengan agen. Silahkan coba lagi nanti.".
Definition MSG_WELCOME : jsstring :=
  js "Selamat datang! Silahkan pilih agent kami untuk keperluan anda. 1) Customer Service 2) Sales Team".
Definition MSG_REQUEST_ERROR : jsstring :=
  js "Terjadi kesalahan saat memproses permintaan Anda. Silahkan coba lagi nanti.".
Definition MSG_MENU : jsstring :=
  js "Silahkan pilih agent kami untuk keperluan anda. 1) Customer Service 2) Sales Team".
Definition MSG_PHONE_MISSING : jsstring := js "Phone number is missing".

(** ** The table [conversation_states]

    One row per user.  [agent] is [null] at creation and a string
    afterwards (the empty string once disconnected); [last_message] is
    whatever the request carried as its message; a timestamp is the
    number of milliseconds since the epoch, which is what
    [new Date(iso).getTime()] gives back for what
    [new Date().toISOString()] wrote. *)
Record UserRecord := {
  phone : jsstring;
  last_message : json;
  state : jsstring;
  agent : option jsstring;
  cs_conversation_id : json;
  sales_conversation_id : json;
  last_activity_timestamp : option Z
}.

(** One member of the payload of a PATCH request. *)
Inductive FieldUpdate :=
| SetState (s : jsstring)
| SetLastMessage (m : json)
| SetAgent (a : jsstring)
| SetCsConversationId (id : json)
| SetSalesConversationId (id : json)
| SetLastActivityTimestamp (t : Z).

Definition apply_update (r : UserRecord) (u : FieldUpdate) : UserRecord :=
  match u with
  | SetState s =>
      {| phone := phone r; last_message := last_message r; state := s;
         agent := agent r; cs_conversation_id := cs_conversation_id r;
         sales_conversation_id := sales_conversation_id r;
         last_activity_timestamp := last_activity_timestamp r |}
  | SetLastMessage m =>
      {| phone := phone r; last_message := m; state := state r;
         agent := agent r; cs_conversation_id := cs_conversation_id r;
         sales_conversation_id := sales_conversation_id r;
         last_activity_timestamp := last_activity_timestamp r |}
  | SetAgent a =>
      {| phone := phone r; last_message := last_message r; state := state r;
         agent := Some a; cs_conversation_id := cs_conversation_id r;
         sales_conversation_id := sales_conversation_id r;
         last_activity_timestamp := last_activity_timestamp r |}
  | SetCsConversationId id =>
      {| phone := phone r; last_message := last_message r; state := state r;
         agent := agent r; cs_conversation_id := id;
         sales_conversation_id := sales_conversation_id r;
         last_activity_timestamp := last_activity_timestamp r |}
  | SetSalesConversationId id =>
      {| phone := phone r; last_message := last_message r; state := state r;
         agent := agent r; cs_conversation_id := cs_conversation_id r;
         sales_conversation_id := id;
         last_activity_timestamp := last_activity_timestamp r |}
  | SetLastActivityTimestamp t =>
      {| phone := phone r; last_message := last_message r; state := state r;
         agent := agent r; cs_conversation_id := cs_conversation_id r;
         sales_conversation_id := sales_conversation_id r;
         last_activity_timestamp := Some t |}
  end.

(** A PATCH changes the members it names and nothing else. *)
Definition apply_patch (payload : list FieldUpdate) (r : UserRecord) : UserRecord :=
  fold_left apply_update payload r.

(** ** The world *)

(** Every HTTP request the server makes, answered or not. *)
Inductive Event :=
| StoreGet (phone : jsstring)
| StorePost (row : UserRecord)
| StorePatch (phone : jsstring) (payload : list FieldUpdate)
| AgentCreate (agent_id : option json)
| AgentChat (conversation_id : json) (message : jsstring).

Record World := {
  db : gmap (list N) UserRecord;
  trace : list Event
}.

(** What the surroundings decide.  The index is the number of requests
    made before: [store_up n] tells whether the store answers request
    [n] (a request that is not answered changes nothing),
    [agent_create_reply n] and [agent_chat_reply n] are the body of a
    2xx answer of the agent API, or [None] when [axios] throws, and
    [clock n] is the time read at that point. *)
Record Env := {
  store_up : nat -> bool;
  agent_create_reply : nat -> option json;
  agent_chat_reply : nat -> option json;
  clock : nat -> Z
}.

Definition M (A : Type) : Type := World -> A * World.

Definition ret {A} (a : A) : M A := fun w => (a, w).

Definition bind {A B} (m : M A) (f : A -> M B) : M B :=
  fun w => let (a, w') := m w in f a w'.

(** [let* x := c in k] reads [const x = await c; k]. *)
Notation "'let*' x := c 'in' k" := (bind c (fun x => k))
  (at level 10, x name, c at level 100, k at level 200).
Notation "'let*' ' pat := c 'in' k" :=
  (bind c (fun x => match x with pat => k end))
  (at level 10, pat pattern, c at level 100, k at level 200).
Notation "'await' c 'in' k" := (bind c (fun _ => k))
  (at level 10, c at level 100, k at level 200).

Definition log (e : Event) (w : World) : World :=
  {| db := db w; trace := trace w ++ [e] |}.

Definition set_db (d : gmap (list N) UserRecord) (w : World) : World :=
  {| db := d; trace := trace w |}.

(** The answer of [checkUserExists]: [{exists: true, data: row}],
    [{exists: false, data: null}] or
    [{exists: false, data: null, error: true}]. *)
Inductive UserCheck :=
| UserFound (data : UserRecord)
| UserNotFound
| UserCheckError.

Definition exists_ (c : UserCheck) : bool :=
  match c with UserFound _ => true | _ => false end.

(** The JSON body of the answer: [{error}] or [{exists, reply, choice}]
    ([exists_before] is the member [exists]). *)
Inductive Body :=
| ErrorBody (error : jsstring)
| ReplyBody (exists_before : bool) (reply : json) (choice : jsstring).

Record HttpResponse := { status : Z; body : Body }.

(** The members [phone] and [message] of the request body as
    [express.json()] or [express.urlencoded()] parsed it into an
    object, [req.body.phone] and [req.body.message]: any value such a
    body can hold, or [None] for [undefined], a member that is missing.
    The webhook sends two strings. *)
Record Request := {
  req_phone : option json;
  req_message : option json
}.

Section Server.

Variable env : Env.

(** [new Date()] *)
Definition now : M Z := fun w => (clock env (length (trace w)), w).

(** *** The store, as PostgREST serves it *)

(** Modelled from the spec: the table [conversation_states] is not part
    of the repository.  [phone] is its unique key, so the filter
    [phone=eq.p] of [axios.get] selects at most one row. *)
Definition store_get (p : jsstring) : M (option (list UserRecord)) :=
  fun w =>
    let w' := log (StoreGet p) w in
    if store_up env (length (trace w)) then
      (Some (match db w !! p with Some r => [r] | None => [] end), w')
    else (None, w').

(** Modelled from the spec: the table [conversation_states] is not part
    of the repository.  [axios.post] inserts the row; [phone] is the
    unique key, so an insert under a key that is taken is refused. *)
Definition store_post (row : UserRecord) : M bool :=
  fun w =>
    let w' := log (StorePost row) w in
    if store_up env (length (trace w)) then
      match db w !! phone row with
      | None => (true, set_db (<[phone row := row]> (db w)) w')
      | Some _ => (false, w')
      end
    else (false, w').

(** Modelled from the spec: the table [conversation_states] is not part
    of the repository.  [axios.patch] with the filter [phone=eq.p] is a
    partial update: the members of the payload change in the row of
    [p], if there is one, and nothing else changes. *)
Definition store_patch (p : jsstring) (payload : list FieldUpdate) : M bool :=
  fun w =>
    let w' := log (StorePatch p payload) w in
    if store_up env (length (trace w)) then
      (true, set_db (alter (apply_patch payload) p (db w)) w')
    else (false, w').

(** *** The agent API *)

(** [axios.post(.../create-conversation, {agent_id})] *)
Definition agent_create (agent_id : option json) : M (option json) :=
  fun w => (agent_create_reply env (length (trace w)), log (AgentCreate agent_id) w).

(** [axios.post(.../chat-agent-stream-v2, {conversation_id, message})] *)
Definition agent_chat (conversation_id : json) (message : jsstring) : M (option json) :=
  fun w => (agent_chat_reply env (length (trace w)),
            log (AgentChat conversation_id message) w).

(** *** The functions of the server

    The store functions return [{success, data}] objects of which the
    callers read [success] at most; they are modelled by that flag. *)

Definition createUser (phone : jsstring) (last_message : option json) : M bool :=
  (* the default value of the parameter: [last_message = ""] *)
  let last_message := default (JStr []) last_message in
  let* t := now in
  let payload :=
    {| phone := phone; last_message := last_message;
       state := js "initial"; agent := None;
       cs_conversation_id := JNull; sales_conversation_id := JNull;
       last_activity_timestamp := Some t |} in
  store_post payload.

Definition checkUserExists (phone : jsstring) : M UserCheck :=
  let* response := store_get phone in
  match response with
  | Some data =>
      match data with
      | row :: _ => ret (UserFound row)
      | [] => ret UserNotFound
      end
  | None => ret UserCheckError
  end.

Definition updateUserMessage (phone : jsstring) (last_message : option json)
  : M bool :=
  let payload :=
    SetState (js "selecting") :: written SetLastMessage last_message in
  store_patch phone payload.

Definition createConversationId (agentType : jsstring) : M json :=
  match AGENT_IDS_get agentType with
  | None => ret JNull
  | Some agentId =>
      let* response := agent_create agentId in
      match response with
      | Some data =>
          (* response.data && response.data.data && response.data.data.id *)
          if truthy data then
            match prop data (js "data") with
            | Some inner =>
                if truthy inner then
                  match prop inner (js "id") with
                  | Some id => if truthy id then ret id else ret JNull
                  | None => ret JNull
                  end
                else ret JNull
            | None => ret JNull
            end
          else ret JNull
      | None => ret JNull
      end
  end.

Definition updateConversationId (phone agentType : jsstring) (conversationId : json)
  : M bool :=
  let* t := now in
  let payload :=
    [ if decide (agentType = CUSTOMER_SERVICE)
      then SetCsConversationId conversationId
      else SetSalesConversationId conversationId;
      SetLastActivityTimestamp t ] in
  store_patch phone payload.

Definition isUserInactive (lastActivityTimestamp : option Z) : M bool :=
  match lastActivityTimestamp with
  | None => ret true
  | Some lastActivity =>
      let* now_ := now in
      let timeDiff := (now_ - lastActivity)%Z in
      ret (INACTIVITY_THRESHOLD_MS <? timeDiff)%Z
  end.

Definition getOrCreateConversationId (phone agentType : jsstring)
    (userData : UserRecord) (forceNewConversation : bool) : M json :=
  let existingConversationId :=
    if decide (agentType = CUSTOMER_SERVICE)
    then cs_conversation_id userData
    else sales_conversation_id userData in
  if negb (truthy existingConversationId) || forceNewConversation then
    let* newConversationId := createConversationId agentType in
    if truthy newConversationId then
      await updateConversationId phone agentType newConversationId in
      ret newConversationId
    else ret JNull
  else ret existingConversationId.

Definition updateLastActivityTimestamp (phone : jsstring) : M bool :=
  let* t := now in
  store_patch phone [SetLastActivityTimestamp t].

(** The [reply] member of the object [chatWithAgent] returns.  The
    first statement of the [try] block logs
    [`... conversation ID: ${conversationId}`]; when that conversion
    throws, the [catch] block answers and no request is made. *)
Definition chatWithAgent (agent message : jsstring) (conversationId : json) : M json :=
  if converts_to_string conversationId then
    let* response := agent_chat conversationId message in
    match response with
    | Some data =>
        ret (if truthy data then data else JStr MSG_CANNOT_PROCESS)
    | None => ret (JStr MSG_AGENT_ERROR)
    end
  else ret (JStr MSG_AGENT_ERROR).

Definition updateUserAgent (phone agent : jsstring) : M bool :=
  store_patch phone [SetAgent agent].

(** [Normal None] is [undefined]: the function ends without a [return]
    when the state is not ["selecting"].  In the state ["selecting"],
    [message.trim()] throws a TypeError unless the message is a string:
    [undefined] and [null] have no properties, and no other value has a
    callable [trim]. *)
Definition handleAgentSelection (phone currentState : jsstring)
    (message : option json) (userData : UserRecord) (isInactive : bool)
  : M (Completion (option (jsstring * json))) :=
  let currentAgent := agent userData in
  if decide (currentState = js "selecting") then
    match message with
    | Some (JStr message) =>
        let selection := trim message in
        let* '(choice, replyMessage, shouldUpdateAgent) :=
          if decide (selection = js "1") then
            ret (CUSTOMER_SERVICE, JStr MSG_CONNECTED_CS, true)
          else if decide (selection = js "2") then
            ret (SALES, JStr MSG_CONNECTED_SALES, true)
          else if decide (selection = js "3") then
            ret ([], JStr MSG_DISCONNECTED, true)
          else
            match currentAgent with
            | Some ((_ :: _) as currentAgent) =>
                let* conversationId :=
                  getOrCreateConversationId phone currentAgent userData isInactive in
                if truthy conversationId then
                  let* chatResponse :=
                    chatWithAgent currentAgent message conversationId in
                  await updateLastActivityTimestamp phone in
                  ret (currentAgent, chatResponse, false)
                else
                  ret (currentAgent, JStr MSG_SYSTEM_ERROR, false)
            | _ =>
                ret (js "INVALID", JStr MSG_SELECT_AGENT, false)
            end in
        let* _ :=
          if shouldUpdateAgent : bool then
            await updateUserAgent phone choice in
            await updateLastActivityTimestamp phone in
            ret tt
          else ret tt in
        ret (Normal (Some (choice, replyMessage)))
    | _ => ret Throw
    end
  else ret (Normal None).

(** [app.post("/", ...)].  The handler catches nothing: what
    [rawPhone.replace] (a TypeError unless the phone is a string) or
    [handleAgentSelection] throws ends the handler before it has sent
    an answer. *)
Definition app_post (req : Request) : M (Completion HttpResponse) :=
  let rawPhone := req_phone req in
  let lastMessage := req_message req in
  if falsy rawPhone then
    ret (Normal {| status := 400; body := ErrorBody MSG_PHONE_MISSING |})
  else
    match rawPhone with
    | Some (JStr rawPhone) =>
        let phone := normalize_phone rawPhone in
        let* userCheck := checkUserExists phone in
        match userCheck with
        | UserFound userData =>
            let* userInactive := isUserInactive (last_activity_timestamp userData) in
            await updateUserMessage phone lastMessage in
            let* result :=
              handleAgentSelection phone (state userData) lastMessage
                userData userInactive in
            match result with
            | Normal (Some (choice, reply)) =>
                ret (Normal {| status := 200;
                               body := ReplyBody (exists_ userCheck) reply choice |})
            | Normal None =>
                ret (Normal {| status := 200;
                               body := ReplyBody (exists_ userCheck)
                                         (JStr MSG_MENU) [] |})
            | Throw => ret Throw
            end
        | _ =>
            let* createResult := createUser phone lastMessage in
            let replyMessage :=
              if createResult then JStr MSG_WELCOME else JStr MSG_REQUEST_ERROR in
            ret (Normal {| status := 200;
                           body := ReplyBody (exists_ userCheck) replyMessage [] |})
        end
    | _ => ret Throw
    end.

End Server.

(** * Vocabulary of the statements *)

(** The world [w] after more calls: the table is [d] and [evs] are the
    calls made since, oldest first. *)
Definition extend (w : World) (d : gmap (list N) UserRecord) (evs : list Event)
  : World :=
  {| db := d; trace := trace w ++ evs |}.

(** The table after a PATCH that the store answered ([served]) or not. *)
Definition patch_if (served : bool) (payload : list FieldUpdate) (p : list N)
    (d : gmap (list N) UserRecord) : gmap (list N) UserRecord :=
  if served then alter (apply_patch payload) p d else d.

(** The decision of [isUserInactive] when the clock shows [now_]. *)
Definition inactive_at (now_ : Z) (lastActivityTimestamp : option Z) : bool :=
  match lastActivityTimestamp with
  | None => true
  | Some lastActivity => (INACTIVITY_THRESHOLD_MS <? now_ - lastActivity)%Z
  end.

(** What [createConversationId] makes of the answer to its request. *)
Definition created_id (response : option json) : json :=
  match response with
  | Some data =>
      if truthy data then
        match prop data (js "data") with
        | Some inner =>
            if truthy inner then
              match prop inner (js "id") with
              | Some id => if truthy id then id else JNull
              | None => JNull
              end
            else JNull
        | None => JNull
        end
      else JNull
  | None => JNull
  end.

(** What [chatWithAgent] makes of the answer to its request. *)
Definition chat_reply (response : option json) : json :=
  match response with
  | Some data => if truthy data then data else JStr MSG_CANNOT_PROCESS
  | None => JStr MSG_AGENT_ERROR
  end.

(** The conversation handle the record holds for an agent type. *)
Definition handle_for (agentType : list N) (userData : UserRecord) : json :=
  if decide (agentType = CUSTOMER_SERVICE)
  then cs_conversation_id userData
  else sales_conversation_id userData.

Definition set_handle (agentType : list N) (id : json) : FieldUpdate :=
  if decide (agentType = CUSTOMER_SERVICE)
  then SetCsConversationId id
  else SetSalesConversationId id.

(** The request has no usable phone, [!rawPhone]: the member is
    missing or empty, or it is [null], [false] or [0]. *)
Definition phone_missing (req : Request) : Prop :=
  falsy (req_phone req) = true.

(** The phone of the request is a string, and not the empty one. *)
Definition phone_given (req : Request) : Prop :=
  exists rawPhone, req_phone req = Some (JStr rawPhone) /\ rawPhone <> [].

(** The phone of the request is truthy and no string: a number, [true],
    an array or an object. *)
Definition phone_not_string (req : Request) : Prop :=
  falsy (req_phone req) = false
  /\ forall rawPhone, req_phone req <> Some (JStr rawPhone).

(** The message of the request is no string: it is missing, or it is
    [null], a number, a boolean, an array or an object. *)
Definition message_not_string (req : Request) : Prop :=
  forall text, req_message req <> Some (JStr text).

(** The payload of the message update. *)
Definition message_payload (message : option json) : list FieldUpdate :=
  SetState (js "selecting") :: written SetLastMessage message.

(** The calls by which [chatWithAgent] sends a message: none for a
    handle that has no conversion to a string. *)
Definition chat_calls (id : json) (message : list N) : list Event :=
  if converts_to_string id then [AgentChat id message] else [].

(** The reply of [chatWithAgent] under the handle [id], when the agent
    API answers [response]. *)
Definition chat_reply_under (id : json) (response : option json) : json :=
  if converts_to_string id then chat_reply response else JStr MSG_AGENT_ERROR.

(** The trimmed message is one of the menu selections. *)
Definition menu_selection (message : list N) : Prop :=
  trim message = js "1" \/ trim message = js "2" \/ trim message = js "3".

(** The record is bound to an agent: [if (currentAgent)]. *)
Definition bound_to (userData : UserRecord) (currentAgent : list N) : Prop :=
  agent userData = Some currentAgent /\ currentAgent <> [].

(** The calls made between the worlds [w] and [w'], oldest first. *)
Definition calls_since (w w' : World) : list Event :=
  drop (length (trace w)) (trace w').

(** The call reads the table. *)
Definition is_store_get (e : Event) : bool :=
  match e with StoreGet _ => true | _ => false end.

Definition is_agent_create (e : Event) : bool :=
  match e with AgentCreate _ => true | _ => false end.

Definition sets_timestamp (u : FieldUpdate) : bool :=
  match u with SetLastActivityTimestamp _ => true | _ => false end.

(** The call writes [last_activity_timestamp]. *)
Definition writes_timestamp (e : Event) : bool :=
  match e with
  | StorePost _ => true
  | StorePatch _ payload => existsb sets_timestamp payload
  | _ => false
  end.

Definition sets_handle (u : FieldUpdate) : bool :=
  match u with
  | SetCsConversationId _ | SetSalesConversationId _ => true
  | _ => false
  end.

(** The call writes a conversation handle. *)
Definition writes_handle (e : Event) : bool :=
  match e with
  | StorePost _ => true
  | StorePatch _ payload => existsb sets_handle payload
  | _ => false
  end.

(** The number of [create-conversation] calls among [evs]. *)
Definition creation_calls (evs : list Event) : nat :=
  length (List.filter is_agent_create evs).

(** The answer to an existing user, from what the router returned. *)
Definition reply_of (result : Completion (option (list N * json)))
  : Completion HttpResponse :=
  match result with
  | Normal (Some (choice, reply)) =>
      Normal {| status := 200; body := ReplyBody true reply choice |}
  | Normal None =>
      Normal {| status := 200; body := ReplyBody true (JStr MSG_MENU) [] |}
  | Throw => Throw
  end.

(** ** Sample surroundings *)

(** Surroundings in which the store answers the calls [store] selects,
    the agent API always answers [created] and [chat], and the clock
    advances by a second per call. *)
Definition sample_env (store : nat -> bool) (created chat : option json) : Env :=
  {| store_up := store;
     agent_create_reply := fun _ => created;
     agent_chat_reply := fun _ => chat;
     clock := fun k => (1000000 + 1000 * Z.of_nat k)%Z |}.

Definition always (b : bool) : nat -> bool := fun _ => b.

(** A 2xx answer of [create-conversation] that carries the handle [id]. *)
Definition created_body (id : string) : json :=
  JObj [(js "data", JObj [(js "id", JStr (js id))])].

Definition sample_phone : list N := js "+62 812-345-678".
Definition sample_key : list N := js "62812345678".

Definition request (message : string) : Request :=
  {| req_phone := Some (JStr sample_phone);
     req_message := Some (JStr (js message)) |}.

Definition sample_record (st : string) (bound : option (list N)) (cs : json)
    (ts : Z) : UserRecord :=
  {| phone := sample_key; last_message := JStr (js "hello"); state := js st;
     agent := bound; cs_conversation_id := cs; sales_conversation_id := JNull;
     last_activity_timestamp := Some ts |}.

Definition empty_world : World := {| db := ∅; trace := [] |}.

Definition world_with (row : UserRecord) : World :=
  {| db := {[ sample_key := row ]}; trace := [] |}.

(** ** Reachable worlds *)

(** The worlds the server reaches from an empty table, whatever the
    requests and whatever the surroundings do. *)
Inductive reachable : World -> Prop :=
| reachable_start : reachable empty_world
| reachable_request (env : Env) (req : Request) (w : World) :
    reachable w -> reachable (app_post env req w).2.

(** A record bound to an agent is in the state ["selecting"] and its
    agent is one of the two of the table of agents. *)
Definition bound_in_menu (r : UserRecord) : Prop :=
  forall a, bound_to r a ->
    state r = js "selecting" /\ (a = CUSTOMER_SERVICE \/ a = SALES).

Definition table_ok (d : gmap (list N) UserRecord) : Prop :=
  forall q r, d !! q = Some r -> bound_in_menu r.

(** An update that neither writes the agent nor leaves the state
    ["selecting"]. *)
Definition harmless (u : FieldUpdate) : bool :=
  match u with
  | SetAgent _ => false
  | SetState s => bool_decide (s = js "selecting")
  | _ => true
  end.

(** A session with surroundings that always answer: the first message
    creates the record, the second moves it to ["selecting"], the third
    selects Customer Service. *)
Definition session_env : Env :=
  sample_env (always true) (Some (created_body "c1")) (Some (JStr (js "hi"))).

Definition bound_world : World :=
  (app_post session_env (request "1")
     (app_post session_env (request "x")
        (app_post session_env (request "hello") empty_world).2).2).2.

Definition bound_record (cs : json) (message : string) (ts : Z) : UserRecord :=
  {| phone := sample_key; last_message := JStr (js message);
     state := js "selecting";
     agent := Some CUSTOMER_SERVICE; cs_conversation_id := cs;
     sales_conversation_id := JNull; last_activity_timestamp := Some ts |}.

(** The table of [bound_world] with a second user, who has written
    once. *)
Definition two_users_world : World :=
  (app_post session_env
     {| req_phone := Some (JStr (js "6281")); req_message := Some (JStr (js "hello")) |}
     bound_world).2.

(** The world after the bound user has sent a first message to the
    agent: the record holds the conversation [c1]. *)
Definition talked_world : World :=
  (app_post session_env (request "hi there") bound_world).2.

(** Surroundings, much later, in which the agent API opens the
    conversation [c2] and the store answers every call but the one
    numbered 17, the fourth call of a request made in [talked_world]. *)
Definition refusing_env : Env :=
  {| store_up := fun k => negb (k =? 17)%nat;
     agent_create_reply := fun _ => Some (created_body "c2");
     agent_chat_reply := fun _ => Some (JStr (js "hi"));
     clock := fun _ => 2000000%Z |}.

(** Surroundings in which the agent API opens a conversation whose
    handle is an object with a member [toString]. *)
Definition object_handle : json := JObj [(js "toString", JNum 1)].

Definition object_handle_env : Env :=
  sample_env (always true)
    (Some (JObj [(js "data", JObj [(js "id", object_handle)])]))
    (Some (JStr (js "hi"))).

(** ** The paths of the handler *)

(** The key under which a request is served. *)
Definition request_key (req : Request) : list N :=
  match req_phone req with
  | Some (JStr rawPhone) => normalize_phone rawPhone
  | _ => []
  end.

Definition is_agent_chat (e : Event) : bool :=
  match e with AgentChat _ _ => true | _ => false end.

Definition is_agent_call (e : Event) : bool :=
  is_agent_create e || is_agent_chat e.

(** The key a call to the store names: the [phone] of the filter of a
    lookup or an update, the [phone] of the row of an insert. *)
Definition store_key (e : Event) : option (list N) :=
  match e with
  | StoreGet p | StorePatch p _ => Some p
  | StorePost row => Some (phone row)
  | _ => None
  end.

(** A key of ASCII digits and letters.  The functions of the store
    write the key into the URL as it is, [...?phone=eq.${phone}]; such
    a key stands for itself there. *)
Definition plain_key (p : list N) : bool :=
  forallb (fun c => (48 <=? c) && (c <=? 57) || (65 <=? c) && (c <=? 90)
                    || (97 <=? c) && (c <=? 122))%N p.

Definition sets_agent (u : FieldUpdate) : bool :=
  match u with SetAgent _ => true | _ => false end.

(** The record has no agent: [currentAgent] is [null] or empty. *)
Definition unbound (userData : UserRecord) : Prop :=
  agent userData = None \/ agent userData = Some [].

(** The record a first contact inserts. *)
Definition new_record (p : list N) (message : option json) (t : Z) : UserRecord :=
  {| phone := p; last_message := default (JStr []) message; state := js "initial";
     agent := None; cs_conversation_id := JNull;
     sales_conversation_id := JNull; last_activity_timestamp := Some t |}.

Section Paths.

Variable env : Env.
Variable req : Request.
Variable w : World.

Let p := request_key req.
Let n := length (trace w).
Let payload := message_payload (req_message req).
Let first := [StoreGet p; StorePatch p payload].
Let d1 := patch_if (store_up env (S n)) payload p (db w).
Let row := new_record p (req_message req) (clock env (S n)).

(** The lookup of the request returns [userData]. *)
Definition found (userData : UserRecord) : Prop :=
  phone_given req /\ store_up env n = true /\ db w !! p = Some userData.

(** The inactivity decision of the request. *)
Definition decided_inactive (userData : UserRecord) : bool :=
  inactive_at (clock env (S n)) (last_activity_timestamp userData).

(** What a request does, path by path: how the handler ends and the
    world it leaves.  One constructor for each way through [app.post]
    and [handleAgentSelection]. *)
Inductive handled : Completion HttpResponse * World -> Prop :=
| handled_missing :
    phone_missing req ->
    handled (Normal {| status := 400; body := ErrorBody MSG_PHONE_MISSING |}, w)
| handled_phone_not_string :
    phone_not_string req ->
    handled (Throw, w)
| handled_created :
    phone_given req ->
    store_up env n = false \/ db w !! p = None ->
    store_up env (S n) = true -> db w !! p = None ->
    handled (Normal {| status := 200;
                       body := ReplyBody false (JStr MSG_WELCOME) [] |},
             extend w (<[p := row]> (db w)) [StoreGet p; StorePost row])
| handled_not_created :
    phone_given req ->
    store_up env n = false \/ db w !! p = None ->
    store_up env (S n) = false \/ db w !! p <> None ->
    handled (Normal {| status := 200;
                       body := ReplyBody false (JStr MSG_REQUEST_ERROR) [] |},
             extend w (db w) [StoreGet p; StorePost row])
| handled_not_selecting userData :
    found userData -> state userData <> js "selecting" ->
    handled (Normal {| status := 200; body := ReplyBody true (JStr MSG_MENU) [] |},
             extend w d1 first)
| handled_message_not_string userData :
    found userData -> state userData = js "selecting" ->
    message_not_string req ->
    handled (Throw, extend w d1 first)
| handled_selection userData text choice reply :
    found userData -> state userData = js "selecting" ->
    req_message req = Some (JStr text) ->
    trim text = js "1" /\ choice = CUSTOMER_SERVICE
                       /\ reply = JStr MSG_CONNECTED_CS
    \/ trim text = js "2" /\ choice = SALES /\ reply = JStr MSG_CONNECTED_SALES
    \/ trim text = js "3" /\ choice = [] /\ reply = JStr MSG_DISCONNECTED ->
    let refresh := [SetLastActivityTimestamp (clock env (S (S (S n))))] in
    handled (Normal {| status := 200; body := ReplyBody true reply choice |},
             extend w
               (patch_if (store_up env (S (S (S n)))) refresh p
                  (patch_if (store_up env (S (S n))) [SetAgent choice] p d1))
               (first ++ [StorePatch p [SetAgent choice]; StorePatch p refresh]))
| handled_prompt userData text :
    found userData -> state userData = js "selecting" ->
    req_message req = Some (JStr text) ->
    ~ menu_selection text -> unbound userData ->
    handled (Normal {| status := 200;
                       body := ReplyBody true (JStr MSG_SELECT_AGENT)
                                 (js "INVALID") |},
             extend w d1 first)
| handled_unknown_agent userData text a :
    found userData -> state userData = js "selecting" ->
    req_message req = Some (JStr text) ->
    ~ menu_selection text -> bound_to userData a ->
    negb (truthy (handle_for a userData)) || decided_inactive userData = true ->
    AGENT_IDS_get a = None ->
    handled (Normal {| status := 200;
                       body := ReplyBody true (JStr MSG_SYSTEM_ERROR) a |},
             extend w d1 first)
| handled_creation_failed userData text a agentId :
    found userData -> state userData = js "selecting" ->
    req_message req = Some (JStr text) ->
    ~ menu_selection text -> bound_to userData a ->
    negb (truthy (handle_for a userData)) || decided_inactive userData = true ->
    AGENT_IDS_get a = Some agentId ->
    truthy (created_id (agent_create_reply env (S (S n)))) = false ->
    handled (Normal {| status := 200;
                       body := ReplyBody true (JStr MSG_SYSTEM_ERROR) a |},
             extend w d1 (first ++ [AgentCreate agentId]))
| handled_new_conversation userData text a agentId :
    found userData -> state userData = js "selecting" ->
    req_message req = Some (JStr text) ->
    ~ menu_selection text -> bound_to userData a ->
    negb (truthy (handle_for a userData)) || decided_inactive userData = true ->
    AGENT_IDS_get a = Some agentId ->
    let id := created_id (agent_create_reply env (S (S n))) in
    truthy id = true ->
    let persist :=
      [set_handle a id; SetLastActivityTimestamp (clock env (S (S (S n))))] in
    let sent := chat_calls id text in
    let k := (length sent + S (S (S (S n))))%nat in
    let refresh := [SetLastActivityTimestamp (clock env k)] in
    handled (Normal {| status := 200;
                       body := ReplyBody true
                                 (chat_reply_under id
                                    (agent_chat_reply env (S (S (S (S n)))))) a |},
             extend w
               (patch_if (store_up env k) refresh p
                  (patch_if (store_up env (S (S (S n)))) persist p d1))
               (first ++ [AgentCreate agentId; StorePatch p persist]
                  ++ sent ++ [StorePatch p refresh]))
| handled_reuse userData text a :
    found userData -> state userData = js "selecting" ->
    req_message req = Some (JStr text) ->
    ~ menu_selection text -> bound_to userData a ->
    truthy (handle_for a userData) = true ->
    decided_inactive userData = false ->
    let id := handle_for a userData in
    let sent := chat_calls id text in
    let k := (length sent + S (S n))%nat in
    let refresh := [SetLastActivityTimestamp (clock env k)] in
    handled (Normal {| status := 200;
                       body := ReplyBody true
                                 (chat_reply_under id
                                    (agent_chat_reply env (S (S n)))) a |},
             extend w (patch_if (store_up env k) refresh p d1)
               (first ++ sent ++ [StorePatch p refresh])).

End Paths.

(** The requests at which the handler throws: the phone is truthy and
    no string, or the lookup returns a record in the state
    ["selecting"] and the message is no string. *)
Definition throws (env : Env) (req : Request) (w : World) : Prop :=
  phone_not_string req
  \/ exists userData,
       found env req w userData /\ state userData = js "selecting"
       /\ message_not_string req.

(** The shape of the records the server writes: under the key [q], a
    record with that phone, in one of the two states, without agent or
    else in the state ["selecting"] with one of the three agent values,
    with a timestamp, and with handles that are [null] or truthy. *)
Definition well_formed (q : list N) (r : UserRecord) : Prop :=
  phone r = q
  /\ (state r = js "initial" \/ state r = js "selecting")
  /\ (agent r = None
      \/ state r = js "selecting"
         /\ (agent r = Some [] \/ agent r = Some CUSTOMER_SERVICE
             \/ agent r = Some SALES))
  /\ last_activity_timestamp r <> None
  /\ (cs_conversation_id r = JNull \/ truthy (cs_conversation_id r) = true)
  /\ (sales_conversation_id r = JNull
      \/ truthy (sales_conversation_id r) = true).

(** ** Proof steps *)

(** Case analysis on the answers of the store. *)
Ltac case_store :=
  repeat match goal with
         | |- context [store_up ?env ?k] => destruct (store_up env k)
         end.

(** The numbers of the calls of a request, counted from [n]. *)
Ltac normalise_calls n :=
  cbv zeta; cbn [length Nat.add app]; fold n.

(** The payload of the message update, with or without a message. *)
Ltac message_cases :=
  unfold message_payload, written;
  match goal with
  | |- context [req_message ?req] => destruct (req_message req)
  | _ => idtac
  end.

(** Case analysis on whether a message is sent under a handle. *)
Ltac case_sent :=
  unfold chat_calls, chat_reply_under;
  repeat match goal with
         | |- context [converts_to_string ?id] =>
             destruct (converts_to_string id) eqn:?
         end.

(** Local definitions left by a case analysis are put back in place. *)
Ltac inline_lets :=
  repeat match goal with x := _ |- _ => subst x end.

(** The record the lookup of a path returned is the record [r] the
    table holds. *)
Ltac same_record Hr :=
  repeat match goal with
         | H : found _ _ _ ?u |- _ =>
             let Hf := fresh "Hfound" in
             destruct H as (_ & _ & Hf); rewrite Hr in Hf;
             injection Hf as <-
         end.

(** The fields of an updated record are computed, and nothing else. *)
Ltac proj_simpl :=
  cbn [phone state agent last_message last_activity_timestamp cs_conversation_id
       sales_conversation_id apply_patch apply_update fold_left fmap
       option_fmap option_map id] in *.

(** * Properties *)

(** ** Strings *)

Lemma replace_class_erase (cls : N -> bool) (s : list N) :
  replace_class cls [] s = List.filter (fun c => negb (cls c)) s.
Proof.
  induction s as [|c rest IH]; simpl; [reflexivity|].
  destruct (cls c); simpl; now rewrite IH.
Qed.

Lemma phone_separator_chars (c : N) :
  phone_separator c = false <->
  isWhiteSpace c = false /\ c <> N_of_ascii "+" /\ c <> N_of_ascii "-".
Proof.
  unfold phone_separator. rewrite !orb_false_iff, !N.eqb_neq. simpl. tauto.
Qed.

Lemma filter_sublist {A} (f : A -> bool) (l : list A) :
  sublist (List.filter f l) l.
Proof.
  induction l as [|x l IH]; simpl; [constructor|].
  destruct (f x); now constructor.
Qed.

Lemma filter_idempotent {A} (f : A -> bool) (l : list A) :
  List.filter f (List.filter f l) = List.filter f l.
Proof.
  induction l as [|x l IH]; simpl; [reflexivity|].
  destruct (f x) eqn:Hx; simpl; [rewrite Hx|]; now rewrite ?IH.
Qed.

(** C9.  Normalising a raw phone string removes every white-space, [+]
    and [-] code unit and nothing else, keeps the remaining code units
    in their order, and normalising twice is the same as normalising
    once. *)
Theorem normalize_phone_strips_separators (raw : list N) :
  normalize_phone raw =
    List.filter (fun c => negb (isWhiteSpace c)
                          && negb (c =? N_of_ascii "+")%N
                          && negb (c =? N_of_ascii "-")%N) raw
  /\ (forall c, In c (normalize_phone raw) <->
                In c raw /\ isWhiteSpace c = false
                /\ c <> N_of_ascii "+" /\ c <> N_of_ascii "-")
  /\ sublist (normalize_phone raw) raw
  /\ normalize_phone (normalize_phone raw) = normalize_phone raw.
Proof.
  unfold normalize_phone. rewrite !replace_class_erase.
  split; [|split; [|split]].
  - apply filter_ext. intros c. unfold phone_separator.
    now rewrite !negb_orb.
  - intros c. rewrite filter_In, negb_true_iff, phone_separator_chars. tauto.
  - apply filter_sublist.
  - apply filter_idempotent.
Qed.

Example normalize_phone_example :
  normalize_phone (js "+62 812-345-678") = js "62812345678".
Proof. reflexivity. Qed.

Example trim_examples :
  trim (js "  1 ") = js "1" /\ trim (js "hi there") = js "hi there"
  /\ trim [9; 0xa0; 50; 0x2028; 10]%N = js "2" /\ trim (js " ") = [].
Proof. repeat split. Qed.

Example AGENT_IDS_get_examples :
  AGENT_IDS_get CUSTOMER_SERVICE
    = Some (Some (JStr (js "948aad98-7c1a-4c07-830a-82125d85543c")))
  /\ AGENT_IDS_get SALES
      = Some (Some (JStr (js "726fb1ca-dee1-4cfb-bba5-41e2cd3b032d")))
  /\ AGENT_IDS_get (js "Support") = None
  /\ AGENT_IDS_get [] = None
  /\ AGENT_IDS_get (js "toString") = Some None.
Proof. repeat split. Qed.

(** ** The inactivity policy *)

(** C5.  [isUserInactive] answers [true] for an absent timestamp; for a
    timestamp [ts] it answers [true] exactly when [now - ts] exceeds
    the threshold, so [false] below the threshold and [false] at the
    boundary [now - ts = threshold].  It changes nothing. *)
Theorem isUserInactive_threshold (env : Env) (w : World) (ts : Z) :
  let now_ := clock env (length (trace w)) in
  isUserInactive env None w = (true, w)
  /\ exists b,
       isUserInactive env (Some ts) w = (b, w)
       /\ (b = true <-> (now_ - ts > INACTIVITY_THRESHOLD_MS)%Z)
       /\ ((now_ - ts < INACTIVITY_THRESHOLD_MS)%Z -> b = false)
       /\ ((now_ - ts = INACTIVITY_THRESHOLD_MS)%Z -> b = false).
Proof.
  intros now_. split; [reflexivity|].
  exists (INACTIVITY_THRESHOLD_MS <? now_ - ts)%Z.
  split; [reflexivity|].
  rewrite Z.ltb_lt, <- not_true_iff_false, Z.ltb_lt. lia.
Qed.

Example isUserInactive_boundary :
  let env := {| store_up := fun _ => true; agent_create_reply := fun _ => None;
                agent_chat_reply := fun _ => None; clock := fun _ => 1060000%Z |} in
  let w := {| db := ∅; trace := [] |} in
  (isUserInactive env (Some 1000000%Z) w).1 = false
  /\ (isUserInactive env (Some 999999%Z) w).1 = true
  /\ (isUserInactive env (Some 1000001%Z) w).1 = false.
Proof. repeat split. Qed.

(** ** The agent gateway *)

(** C10.  [chatWithAgent] returns a reply for every agent, message,
    conversation handle and behaviour of the agent API, and throws
    nothing.  It makes the one chat call and touches nothing else; the
    reply is the apology text when the call fails, the cannot-process
    text when the call succeeds with a falsy body, and the body itself
    otherwise.  For a handle that cannot be written into the log line
    the error is caught as well: the reply is the apology text, and no
    call is made. *)
Theorem chatWithAgent_total (env : Env) (agentName message : list N)
    (conversationId : json) (w : World) :
  exists reply w',
    chatWithAgent env agentName message conversationId w = (reply, w')
    /\ (converts_to_string conversationId = true ->
        w' = log (AgentChat conversationId message) w
        /\ (agent_chat_reply env (length (trace w)) = None ->
            reply = JStr MSG_AGENT_ERROR)
        /\ (forall data, agent_chat_reply env (length (trace w)) = Some data ->
            truthy data = false -> reply = JStr MSG_CANNOT_PROCESS)
        /\ (forall data, agent_chat_reply env (length (trace w)) = Some data ->
            truthy data = true -> reply = data))
    /\ (converts_to_string conversationId = false ->
        w' = w /\ reply = JStr MSG_AGENT_ERROR).
Proof.
  unfold chatWithAgent, bind, agent_chat, ret.
  destruct (converts_to_string conversationId).
  - destruct (agent_chat_reply env (length (trace w))) as [data|] eqn:Hreply.
    + eexists (if truthy data then data else JStr MSG_CANNOT_PROCESS), _.
      split; [reflexivity|]. split; [|discriminate].
      intros _. split; [reflexivity|]. split; [discriminate|].
      split; intros d [= <-] ->; reflexivity.
    + eexists (JStr MSG_AGENT_ERROR), _. split; [reflexivity|].
      split; [|discriminate]. intros _. split; [reflexivity|].
      split; [reflexivity|]. split; discriminate.
  - exists (JStr MSG_AGENT_ERROR), w. split; [reflexivity|].
    split; [discriminate|]. intros _. split; reflexivity.
Qed.

(** A handle is written into the log line as a string: an object with
    a member [toString] has no such form, nor has an array that holds
    one. *)
Example converts_to_string_examples :
  converts_to_string (JStr (js "c1")) = true
  /\ converts_to_string (JNum 7) = true
  /\ converts_to_string (JObj [(js "id", JNum 7)]) = true
  /\ converts_to_string (JArr [JNull; JStr (js "c1")]) = true
  /\ converts_to_string (JObj [(js "toString", JNum 1)]) = false
  /\ converts_to_string (JArr [JObj [(js "toString", JNull)]]) = false.
Proof. repeat split. Qed.

(** An empty string is falsy, an empty object or array is not: the
    latter are forwarded as they are. *)
Example truthy_bodies :
  truthy (JStr []) = false /\ truthy JNull = false /\ truthy (JNum 0) = false
  /\ truthy (JBool false) = false
  /\ truthy (JObj []) = true /\ truthy (JArr []) = true.
Proof. repeat split. Qed.

(** ** Running the calls

    Each function, run in a world that is [w] extended by the calls
    [evs], leaves [w] extended by some more calls; the call numbered
    [length evs + length (trace w)] is the next one. *)

Lemma extend_start (w : World) : w = extend w (db w) [].
Proof. destruct w; unfold extend; simpl. now rewrite app_nil_r. Qed.

Section Run.

Variable env : Env.
Variable w : World.
Variable d : gmap (list N) UserRecord.
Variable evs : list Event.

Let k := (length evs + length (trace w))%nat.

Lemma trace_length_extend : length (trace (extend w d evs)) = k.
Proof. unfold extend; simpl. rewrite length_app. apply Nat.add_comm. Qed.

Lemma length_snoc (e : Event) :
  (length (evs ++ [e]) + length (trace w) = S k)%nat.
Proof. rewrite length_app. simpl. now rewrite Nat.add_1_r. Qed.

Lemma extend_log (e : Event) : log e (extend w d evs) = extend w d (evs ++ [e]).
Proof. unfold log, extend; simpl. now rewrite app_assoc. Qed.

Lemma run_now : now env (extend w d evs) = (clock env k, extend w d evs).
Proof. unfold now. now rewrite trace_length_extend. Qed.

Lemma run_store_patch (p : list N) (payload : list FieldUpdate) :
  store_patch env p payload (extend w d evs)
  = (store_up env k,
     extend w (patch_if (store_up env k) payload p d)
       (evs ++ [StorePatch p payload])).
Proof.
  unfold store_patch, patch_if. rewrite trace_length_extend, extend_log.
  now destruct (store_up env k).
Qed.

Lemma run_checkUserExists (p : list N) :
  checkUserExists env p (extend w d evs)
  = (if store_up env k then
       match d !! p with Some row => UserFound row | None => UserNotFound end
     else UserCheckError,
     extend w d (evs ++ [StoreGet p])).
Proof.
  unfold checkUserExists, bind, store_get.
  rewrite trace_length_extend, extend_log.
  destruct (store_up env k); [|reflexivity].
  simpl. now destruct (d !! p).
Qed.

Lemma run_createUser (p : list N) (message : option json) :
  let row := new_record p message (clock env k) in
  createUser env p message (extend w d evs)
  = if store_up env k then
      match d !! p with
      | None => (true, extend w (<[p := row]> d) (evs ++ [StorePost row]))
      | Some _ => (false, extend w d (evs ++ [StorePost row]))
      end
    else (false, extend w d (evs ++ [StorePost row])).
Proof.
  intros row. unfold createUser, bind. rewrite run_now.
  unfold store_post. rewrite trace_length_extend, extend_log.
  fold (new_record p message (clock env k)). fold row.
  destruct (store_up env k); [|reflexivity].
  simpl. now destruct (d !! p).
Qed.

Lemma run_isUserInactive (ts : option Z) :
  isUserInactive env ts (extend w d evs)
  = (inactive_at (clock env k) ts, extend w d evs).
Proof.
  destruct ts as [t|]; [|reflexivity].
  unfold isUserInactive, bind. now rewrite run_now.
Qed.

Lemma run_updateUserMessage (p : list N) (message : option json) :
  let payload := message_payload message in
  updateUserMessage env p message (extend w d evs)
  = (store_up env k,
     extend w (patch_if (store_up env k) payload p d)
       (evs ++ [StorePatch p payload])).
Proof. apply run_store_patch. Qed.

Lemma run_updateUserAgent (p a : list N) :
  updateUserAgent env p a (extend w d evs)
  = (store_up env k,
     extend w (patch_if (store_up env k) [SetAgent a] p d)
       (evs ++ [StorePatch p [SetAgent a]])).
Proof. apply run_store_patch. Qed.

Lemma run_updateLastActivityTimestamp (p : list N) :
  let payload := [SetLastActivityTimestamp (clock env k)] in
  updateLastActivityTimestamp env p (extend w d evs)
  = (store_up env k,
     extend w (patch_if (store_up env k) payload p d)
       (evs ++ [StorePatch p payload])).
Proof.
  unfold updateLastActivityTimestamp, bind. rewrite run_now.
  apply run_store_patch.
Qed.

Lemma run_updateConversationId (p a : list N) (id : json) :
  let payload := [set_handle a id; SetLastActivityTimestamp (clock env k)] in
  updateConversationId env p a id (extend w d evs)
  = (store_up env k,
     extend w (patch_if (store_up env k) payload p d)
       (evs ++ [StorePatch p payload])).
Proof.
  unfold updateConversationId, bind. rewrite run_now.
  apply run_store_patch.
Qed.

Lemma run_createConversationId (a : list N) :
  createConversationId env a (extend w d evs)
  = match AGENT_IDS_get a with
    | None => (JNull, extend w d evs)
    | Some agentId =>
        (created_id (agent_create_reply env k),
         extend w d (evs ++ [AgentCreate agentId]))
    end.
Proof.
  unfold createConversationId.
  destruct (AGENT_IDS_get a) as [agentId|]; [|reflexivity].
  unfold bind, agent_create. rewrite trace_length_extend, extend_log.
  unfold created_id.
  destruct (agent_create_reply env k) as [data|]; [|reflexivity].
  destruct (truthy data); [|reflexivity].
  destruct (prop data (js "data")) as [inner|]; [|reflexivity].
  destruct (truthy inner); [|reflexivity].
  destruct (prop inner (js "id")) as [id|]; [|reflexivity].
  now destruct (truthy id).
Qed.

Lemma run_chatWithAgent (a message : list N) (id : json) :
  chatWithAgent env a message id (extend w d evs)
  = (chat_reply_under id (agent_chat_reply env k),
     extend w d (evs ++ chat_calls id message)).
Proof.
  unfold chatWithAgent, chat_reply_under, chat_calls.
  destruct (converts_to_string id); [|now rewrite app_nil_r].
  unfold bind, agent_chat. rewrite trace_length_extend, extend_log.
  now destruct (agent_chat_reply env k).
Qed.

End Run.

Lemma run_getOrCreateConversationId (env : Env) (w : World)
    (d : gmap (list N) UserRecord) (evs : list Event)
    (p a : list N) (userData : UserRecord) (force : bool) :
  let k := (length evs + length (trace w))%nat in
  getOrCreateConversationId env p a userData force (extend w d evs)
  = if negb (truthy (handle_for a userData)) || force then
      match AGENT_IDS_get a with
      | None => (JNull, extend w d evs)
      | Some agentId =>
          let id := created_id (agent_create_reply env k) in
          if truthy id then
            let payload :=
              [set_handle a id; SetLastActivityTimestamp (clock env (S k))] in
            (id, extend w (patch_if (store_up env (S k)) payload p d)
                   (evs ++ [AgentCreate agentId; StorePatch p payload]))
          else (JNull, extend w d (evs ++ [AgentCreate agentId]))
      end
    else (handle_for a userData, extend w d evs).
Proof.
  intros k. unfold getOrCreateConversationId. fold (handle_for a userData).
  destruct (negb (truthy (handle_for a userData)) || force); [|reflexivity].
  unfold bind at 1. rewrite run_createConversationId.
  destruct (AGENT_IDS_get a) as [agentId|]; [|reflexivity].
  cbv zeta. destruct (truthy (created_id _)); [|reflexivity].
  unfold bind, ret. rewrite run_updateConversationId, length_snoc.
  now rewrite <- app_assoc.
Qed.

Lemma created_id_truthy (response : option json) :
  created_id response <> JNull -> truthy (created_id response) = true.
Proof.
  unfold created_id. intros H.
  destruct response as [data|]; [|congruence].
  destruct (truthy data); [|congruence].
  destruct (prop data (js "data")) as [inner|]; [|congruence].
  destruct (truthy inner); [|congruence].
  destruct (prop inner (js "id")) as [id|]; [|congruence].
  destruct (truthy id) eqn:Hid; [assumption|congruence].
Qed.

(** ** The webhook handler *)

Lemma js_selecting_initial : js "initial" <> js "selecting".
Proof. discriminate. Qed.

Lemma js_menu_distinct :
  js "2" <> js "1" /\ js "3" <> js "1" /\ js "3" <> js "2".
Proof. repeat split; discriminate. Qed.

(** A menu selection, in the state ["selecting"]: the agent update and
    the timestamp update follow, whatever the store answers. *)
Lemma run_selection (env : Env) (w : World) (d : gmap (list N) UserRecord)
    (evs : list Event) (p text : list N) (userData : UserRecord)
    (inactive : bool) :
  let k := (length evs + length (trace w))%nat in
  menu_selection text ->
  exists choice reply,
    (trim text = js "1" /\ choice = CUSTOMER_SERVICE
                        /\ reply = JStr MSG_CONNECTED_CS
     \/ trim text = js "2" /\ choice = SALES /\ reply = JStr MSG_CONNECTED_SALES
     \/ trim text = js "3" /\ choice = [] /\ reply = JStr MSG_DISCONNECTED)
    /\ handleAgentSelection env p (js "selecting") (Some (JStr text)) userData
         inactive (extend w d evs)
       = (Normal (Some (choice, reply)),
          extend w
            (patch_if (store_up env (S k))
               [SetLastActivityTimestamp (clock env (S k))] p
               (patch_if (store_up env k) [SetAgent choice] p d))
            (evs ++ [StorePatch p [SetAgent choice];
                     StorePatch p [SetLastActivityTimestamp (clock env (S k))]])).
Proof.
  intros k Hmenu.
  assert (Hrun : forall (choice : list N) (reply : json),
    (let* _ :=
       await updateUserAgent env p choice in
       await updateLastActivityTimestamp env p in ret tt in
     ret (Normal (Some (choice, reply)))) (extend w d evs)
    = (Normal (Some (choice, reply)),
       extend w
         (patch_if (store_up env (S k))
            [SetLastActivityTimestamp (clock env (S k))] p
            (patch_if (store_up env k) [SetAgent choice] p d))
         (evs ++ [StorePatch p [SetAgent choice];
                  StorePatch p [SetLastActivityTimestamp (clock env (S k))]]))).
  { intros choice reply. unfold bind at 1 2.
    rewrite run_updateUserAgent. unfold bind, ret.
    rewrite run_updateLastActivityTimestamp, length_snoc.
    now rewrite <- app_assoc. }
  destruct js_menu_distinct as (H21 & H31 & H32).
  unfold handleAgentSelection. rewrite decide_True by reflexivity. cbv zeta.
  destruct Hmenu as [H|[H|H]]; rewrite H.
  - exists CUSTOMER_SERVICE, (JStr MSG_CONNECTED_CS). split; [tauto|].
    rewrite decide_True by reflexivity. apply Hrun.
  - exists SALES, (JStr MSG_CONNECTED_SALES). split; [tauto|].
    rewrite decide_False by assumption. rewrite decide_True by reflexivity.
    apply Hrun.
  - exists [], (JStr MSG_DISCONNECTED). split; [tauto|].
    rewrite !decide_False by assumption. rewrite decide_True by reflexivity.
    apply Hrun.
Qed.

Lemma calls_since_extend (w : World) (d : gmap (list N) UserRecord)
    (evs : list Event) :
  calls_since w (extend w d evs) = evs.
Proof. unfold calls_since, extend; simpl. apply drop_app_length. Qed.

(** A request whose phone is a string starts with the lookup of the
    record. *)
Lemma app_post_lookup (env : Env) (req : Request) (w : World) (raw : list N) :
  let p := normalize_phone raw in
  let n := length (trace w) in
  let message := req_message req in
  req_phone req = Some (JStr raw) -> raw <> [] ->
  app_post env req w
  = if store_up env n then
      match db w !! p with
      | Some userData =>
          let payload := message_payload message in
          let (result, w') :=
            handleAgentSelection env p (state userData) message userData
              (inactive_at (clock env (S n)) (last_activity_timestamp userData))
              (extend w (patch_if (store_up env (S n)) payload p (db w))
                 [StoreGet p; StorePatch p payload]) in
          (reply_of result, w')
      | None =>
          let (created, w') :=
            createUser env p message (extend w (db w) [StoreGet p]) in
          (Normal {| status := 200;
                     body := ReplyBody false
                               (JStr (if created then MSG_WELCOME
                                      else MSG_REQUEST_ERROR)) [] |},
           w')
      end
    else
      let (created, w') :=
        createUser env p message (extend w (db w) [StoreGet p]) in
      (Normal {| status := 200;
                 body := ReplyBody false
                           (JStr (if created then MSG_WELCOME
                                  else MSG_REQUEST_ERROR)) [] |},
       w').
Proof.
  intros p n message Hphone Hraw.
  unfold app_post. rewrite Hphone.
  destruct raw as [|c raw']; [congruence|].
  cbn [falsy truthy truthy_string negb].
  fold p message. unfold bind at 1.
  rewrite (extend_start w) at 1. rewrite run_checkUserExists.
  change (length [] + length (trace w))%nat with n.
  destruct (store_up env n).
  - destruct (db w !! p) as [userData|].
    + unfold bind at 1. rewrite run_isUserInactive.
      unfold bind at 1. rewrite run_updateUserMessage.
      change (length ([] ++ [StoreGet p]) + length (trace w))%nat with (S n).
      unfold bind, ret. simpl app.
      destruct (handleAgentSelection _ _ _ _ _ _ _)
        as [[[[choice reply]|]|] w']; reflexivity.
    + unfold bind, ret. simpl app.
      destruct (createUser _ _ _ _) as [[] w']; reflexivity.
  - unfold bind, ret. simpl app.
    destruct (createUser _ _ _ _) as [[] w']; reflexivity.
Qed.

Lemma lookup_patch_if (served : bool) (payload : list FieldUpdate) (p : list N)
    (d : gmap (list N) UserRecord) :
  patch_if served payload p d !! p
  = (if served then apply_patch payload else id) <$> d !! p.
Proof.
  unfold patch_if. destruct served.
  - apply lookup_alter_eq.
  - now destruct (d !! p).
Qed.

(** *** First contact *)

(** C7, as amended.  The first message from a phone that has no
    record is answered with [exists = false] and an empty choice, and
    nothing is routed: the only calls are the lookup and the insert of
    a record in state ["initial"], without agent and without
    conversation handles.  When the store accepts the insert, the reply
    is the welcome text and the table holds that record; when it does
    not, the reply is the request-error text and there is still no
    record. *)
Theorem first_message_creates_user (env : Env) (req : Request) (w : World)
    (raw : list N) :
  let p := normalize_phone raw in
  let n := length (trace w) in
  let row := {| phone := p; last_message := default (JStr []) (req_message req);
                state := js "initial"; agent := None;
                cs_conversation_id := JNull; sales_conversation_id := JNull;
                last_activity_timestamp := Some (clock env (S n)) |} in
  req_phone req = Some (JStr raw) -> truthy_string raw = true ->
  db w !! p = None ->
  exists reply w',
    app_post env req w
      = (Normal {| status := 200; body := ReplyBody false reply [] |}, w')
    /\ calls_since w w' = [StoreGet p; StorePost row]
    /\ (store_up env (S n) = true ->
        reply = JStr MSG_WELCOME /\ db w' !! p = Some row)
    /\ (store_up env (S n) = false ->
        reply = JStr MSG_REQUEST_ERROR /\ db w' !! p = None).
Proof.
  intros p n row Hphone Hraw Hnew.
  assert (raw <> []) as Hne by (intros ->; discriminate).
  rewrite (app_post_lookup env req w raw Hphone Hne). cbv zeta.
  fold p n. rewrite Hnew.
  assert (Hcreate :
    createUser env p (req_message req) (extend w (db w) [StoreGet p])
    = if store_up env (S n) then
        (true, extend w (<[p := row]> (db w)) [StoreGet p; StorePost row])
      else (false, extend w (db w) [StoreGet p; StorePost row])).
  { rewrite run_createUser. cbv zeta.
    change (length [StoreGet p] + length (trace w))%nat with (S n).
    unfold new_record. fold row. rewrite Hnew. reflexivity. }
  assert (Hboth :
    (let (created, w') :=
       createUser env p (req_message req) (extend w (db w) [StoreGet p]) in
     (Normal {| status := 200;
                body := ReplyBody false
                          (JStr (if created then MSG_WELCOME
                                 else MSG_REQUEST_ERROR)) [] |},
      w'))
    = (Normal {| status := 200;
                 body := ReplyBody false
                           (JStr (if store_up env (S n) then MSG_WELCOME
                                  else MSG_REQUEST_ERROR)) [] |},
       extend w (if store_up env (S n) then <[p := row]> (db w) else db w)
         [StoreGet p; StorePost row])).
  { rewrite Hcreate. now destruct (store_up env (S n)). }
  eexists _, _. split.
  - destruct (store_up env n); exact Hboth.
  - rewrite calls_since_extend. split; [reflexivity|].
    split; intros ->; (split; [reflexivity|]); simpl.
    + apply lookup_insert_eq.
    + exact Hnew.
Qed.

Lemma first_message_creates_user_witness :
  exists reply w',
    app_post (sample_env (always true) None None) (request "hello") empty_world
      = (Normal {| status := 200; body := ReplyBody false reply [] |}, w')
    /\ calls_since empty_world w'
        = [StoreGet sample_key;
           StorePost {| phone := sample_key; last_message := JStr (js "hello");
                        state := js "initial"; agent := None;
                        cs_conversation_id := JNull;
                        sales_conversation_id := JNull;
                        last_activity_timestamp := Some 1001000%Z |}]
    /\ reply = JStr MSG_WELCOME.
Proof.
  destruct (first_message_creates_user (sample_env (always true) None None)
              (request "hello") empty_world sample_phone)
    as (reply & w' & Hrun & Hcalls & Hok & _);
    [reflexivity | reflexivity | reflexivity |].
  exists reply, w'. split; [exact Hrun|]. split; [exact Hcalls|].
  apply Hok. reflexivity.
Defined.

(** C7 as first stated fails when the store refuses the insert: the
    reply is then the request-error text and no record exists. *)
Lemma first_message_store_refuses :
  ~ (forall (env : Env) (req : Request) (w : World) (raw : list N),
       req_phone req = Some (JStr raw) -> truthy_string raw = true ->
       db w !! normalize_phone raw = None ->
       exists w' row,
         app_post env req w
           = (Normal {| status := 200;
                        body := ReplyBody false (JStr MSG_WELCOME) [] |}, w')
         /\ db w' !! normalize_phone raw = Some row
         /\ state row = js "initial" /\ agent row = None
         /\ cs_conversation_id row = JNull
         /\ sales_conversation_id row = JNull).
Proof.
  intros Hclaim.
  destruct (Hclaim (sample_env (always false) None None) (request "hello")
              empty_world sample_phone eq_refl eq_refl eq_refl)
    as (w' & row & Hrun & _).
  vm_compute in Hrun. discriminate Hrun.
Qed.

Example first_message_store_refuses_reply :
  (app_post (sample_env (always false) None None) (request "hello") empty_world).1
  = Normal {| status := 200; body := ReplyBody false (JStr MSG_REQUEST_ERROR) [] |}.
Proof. reflexivity. Qed.

(** *** Menu selections *)

(** In a state other than ["selecting"] the message is not looked at:
    the router returns nothing and the handler answers with the menu. *)
Lemma run_not_selecting (env : Env) (w0 : World) (p st : list N)
    (message : option json) (userData : UserRecord) (inactive : bool) :
  st <> js "selecting" ->
  handleAgentSelection env p st message userData inactive w0 = (Normal None, w0).
Proof.
  intros Hst. unfold handleAgentSelection. now rewrite decide_False.
Qed.

(** In the state ["selecting"], a message that is no string makes
    [message.trim()] throw, before any call of the router. *)
Lemma run_not_string (env : Env) (w0 : World) (p : list N)
    (message : option json) (userData : UserRecord) (inactive : bool) :
  (forall text, message <> Some (JStr text)) ->
  handleAgentSelection env p (js "selecting") message userData inactive w0
  = (Throw, w0).
Proof.
  intros Hmessage. unfold handleAgentSelection.
  rewrite decide_True by reflexivity.
  destruct message as [[| | |text| |]|]; try reflexivity.
  now destruct (Hmessage text).
Qed.

(** A message that is no selection, from a user bound to an agent: the
    conversation is reused or created, the message is sent when there
    is a handle, and the timestamp is refreshed after the send. *)
Lemma run_route (env : Env) (w : World) (d : gmap (list N) UserRecord)
    (evs : list Event) (p text : list N) (userData : UserRecord)
    (inactive : bool) (a : list N) :
  let k := (length evs + length (trace w))%nat in
  let handle := handle_for a userData in
  ~ menu_selection text -> bound_to userData a ->
  handleAgentSelection env p (js "selecting") (Some (JStr text)) userData inactive
    (extend w d evs)
  = if negb (truthy handle) || inactive then
      match AGENT_IDS_get a with
      | None => (Normal (Some (a, JStr MSG_SYSTEM_ERROR)), extend w d evs)
      | Some agentId =>
          let id := created_id (agent_create_reply env k) in
          if truthy id then
            let persist :=
              [set_handle a id; SetLastActivityTimestamp (clock env (S k))] in
            let sent := chat_calls id text in
            let k' := (length sent + S (S k))%nat in
            let refresh := [SetLastActivityTimestamp (clock env k')] in
            (Normal (Some (a, chat_reply_under id (agent_chat_reply env (S (S k))))),
             extend w
               (patch_if (store_up env k') refresh p
                  (patch_if (store_up env (S k)) persist p d))
               (evs ++ [AgentCreate agentId; StorePatch p persist]
                  ++ sent ++ [StorePatch p refresh]))
          else
            (Normal (Some (a, JStr MSG_SYSTEM_ERROR)),
             extend w d (evs ++ [AgentCreate agentId]))
      end
    else
      let sent := chat_calls handle text in
      let k' := (length sent + k)%nat in
      let refresh := [SetLastActivityTimestamp (clock env k')] in
      (Normal (Some (a, chat_reply_under handle (agent_chat_reply env k))),
       extend w (patch_if (store_up env k') refresh p d)
         (evs ++ sent ++ [StorePatch p refresh])).
Proof.
  intros k handle Hmenu [Hagent Hbound].
  unfold menu_selection in Hmenu.
  unfold handleAgentSelection. rewrite decide_True by reflexivity. cbv zeta.
  rewrite !decide_False by tauto.
  rewrite Hagent. destruct a as [|c a']; [congruence|].
  set (a := c :: a') in *.
  unfold bind at 1 2. rewrite run_getOrCreateConversationId. cbv zeta.
  fold k handle.
  destruct (negb (truthy handle) || inactive) eqn:Hnew.
  - destruct (AGENT_IDS_get a) as [agentId|]; [|reflexivity].
    destruct (truthy (created_id _)) eqn:Hid; [|reflexivity].
    rewrite Hid. unfold bind at 1. rewrite run_chatWithAgent.
    unfold bind at 1. rewrite run_updateLastActivityTimestamp. cbv zeta.
    rewrite !length_app. simpl length.
    replace (length evs + 2 + length (trace w))%nat with (S (S k)) by (subst k; lia).
    replace (length evs + 2 + length (chat_calls (created_id (agent_create_reply env k)) text)
             + length (trace w))%nat
      with (length (chat_calls (created_id (agent_create_reply env k)) text)
            + S (S k))%nat by (subst k; lia).
    unfold bind, ret. now rewrite <- !app_assoc.
  - apply orb_false_iff in Hnew as [Hhandle _].
    apply negb_false_iff in Hhandle. rewrite Hhandle.
    unfold bind at 1. rewrite run_chatWithAgent.
    unfold bind at 1. rewrite run_updateLastActivityTimestamp. cbv zeta.
    rewrite !length_app.
    replace (length evs + length (chat_calls handle text) + length (trace w))%nat
      with (length (chat_calls handle text) + k)%nat by (subst k; lia).
    unfold bind, ret. now rewrite <- !app_assoc.
Qed.

(** A message that is no selection, from a user without an agent: the
    prompt to select one. *)
Lemma run_prompt (env : Env) (w0 : World) (p text : list N)
    (userData : UserRecord) (inactive : bool) :
  ~ menu_selection text ->
  agent userData = None \/ agent userData = Some [] ->
  handleAgentSelection env p (js "selecting") (Some (JStr text)) userData inactive w0
  = (Normal (Some (js "INVALID", JStr MSG_SELECT_AGENT)), w0).
Proof.
  intros Hmenu Hagent. unfold menu_selection in Hmenu.
  unfold handleAgentSelection. rewrite decide_True by reflexivity. cbv zeta.
  rewrite !decide_False by tauto.
  now destruct Hagent as [-> | ->].
Qed.

(** What the message ["1"] does, state by state.  For an existing
    user whose state is ["selecting"], the message ["1"] (after
    trimming) is answered with the choice ["Customer Service"] and the
    connected text; the handler writes the message, then
    [agent = "Customer Service"], then the timestamp; the state stays
    ["selecting"], and the record holds the agent once the store
    accepts that write.  In the state ["initial"] the router is handed
    the state the lookup returned, not the one the message update has
    just written, and does not look at the message: the answer is the
    menu text with an empty choice, only the message update is written
    and the agent is as it was. *)
Lemma select_customer_service (env : Env) (req : Request) (w : World)
    (raw text : list N) (userData : UserRecord) :
  let p := normalize_phone raw in
  let n := length (trace w) in
  let update_message :=
    StorePatch p [SetState (js "selecting"); SetLastMessage (JStr text)] in
  req_phone req = Some (JStr raw) -> truthy_string raw = true ->
  store_up env n = true -> db w !! p = Some userData ->
  req_message req = Some (JStr text) -> trim text = js "1" ->
  (state userData = js "selecting" ->
   exists w',
     app_post env req w
       = (Normal {| status := 200;
                    body := ReplyBody true (JStr MSG_CONNECTED_CS)
                              CUSTOMER_SERVICE |}, w')
     /\ calls_since w w'
        = [StoreGet p; update_message;
           StorePatch p [SetAgent CUSTOMER_SERVICE];
           StorePatch p [SetLastActivityTimestamp (clock env (S (S (S n))))]]
     /\ state <$> db w' !! p = Some (js "selecting")
     /\ (store_up env (S (S n)) = true ->
         agent <$> db w' !! p = Some (Some CUSTOMER_SERVICE)))
  /\ (state userData = js "initial" ->
      exists w',
        app_post env req w
          = (Normal {| status := 200;
                       body := ReplyBody true (JStr MSG_MENU) [] |}, w')
        /\ calls_since w w' = [StoreGet p; update_message]
        /\ agent <$> db w' !! p = Some (agent userData)
        /\ (store_up env (S n) = true ->
            state <$> db w' !! p = Some (js "selecting"))).
Proof.
  intros p n update_message Hphone Hraw Hup Hdb Hmessage Hone.
  subst update_message.
  assert (raw <> []) as Hne by (intros ->; discriminate).
  rewrite (app_post_lookup env req w raw Hphone Hne). cbv zeta.
  fold p n. rewrite Hup, Hdb, Hmessage.
  unfold message_payload, written.
  split; intros Hstate; rewrite Hstate.
  - destruct (run_selection env w
                (patch_if (store_up env (S n))
                   [SetState (js "selecting"); SetLastMessage (JStr text)] p (db w))
                [StoreGet p;
                 StorePatch p [SetState (js "selecting"); SetLastMessage (JStr text)]]
                p text userData
                (inactive_at (clock env (S n)) (last_activity_timestamp userData)))
      as (choice & reply & Hcase & Hrun); [now left|].
    destruct Hcase as [(_ & -> & ->)|[(H2 & _)|(H3 & _)]];
      [|rewrite Hone in H2; discriminate H2|rewrite Hone in H3; discriminate H3].
    rewrite Hrun.
    eexists. split; [reflexivity|].
    rewrite calls_since_extend. split; [reflexivity|].
    simpl db. fold n. rewrite !lookup_patch_if, Hdb. split.
    + case_store; simpl; now rewrite ?Hstate.
    + intros ->. case_store; reflexivity.
  - rewrite run_not_selecting by apply js_selecting_initial.
    eexists. split; [reflexivity|].
    rewrite calls_since_extend. split; [reflexivity|].
    simpl db. fold n. rewrite !lookup_patch_if, Hdb. split.
    + now case_store.
    + now intros ->.
Qed.

Example select_customer_service_in_state_selecting :
  let env := sample_env (always true) None None in
  let w := world_with (sample_record "selecting" None JNull 0) in
  exists w',
    app_post env (request " 1 ") w
      = (Normal {| status := 200;
                   body := ReplyBody true (JStr MSG_CONNECTED_CS)
                             CUSTOMER_SERVICE |}, w')
    /\ agent <$> db w' !! sample_key = Some (Some CUSTOMER_SERVICE).
Proof.
  intros env w.
  destruct (select_customer_service env (request " 1 ") w sample_phone (js " 1 ")
              (sample_record "selecting" None JNull 0))
    as [Hselecting _];
    [reflexivity | reflexivity | reflexivity | reflexivity | reflexivity
    | reflexivity |].
  destruct (Hselecting eq_refl) as (w' & Hrun & _ & _ & Hagent).
  exists w'. split; [exact Hrun|]. apply Hagent. reflexivity.
Qed.

(** The selection of Customer Service does not hold for every record
    in the state ["initial"] or ["selecting"]: it fails in the state
    ["initial"]. *)
Lemma select_customer_service_initial :
  ~ (forall (env : Env) (req : Request) (w : World) (raw text : list N)
            (userData : UserRecord),
       req_phone req = Some (JStr raw) -> truthy_string raw = true ->
       store_up env (length (trace w)) = true ->
       db w !! normalize_phone raw = Some userData ->
       state userData = js "initial" \/ state userData = js "selecting" ->
       req_message req = Some (JStr text) -> trim text = js "1" ->
       exists w',
         app_post env req w
           = (Normal {| status := 200;
                        body := ReplyBody true (JStr MSG_CONNECTED_CS)
                                  CUSTOMER_SERVICE |},
              w')
         /\ agent <$> db w' !! normalize_phone raw = Some (Some CUSTOMER_SERVICE)
         /\ state <$> db w' !! normalize_phone raw = Some (js "selecting")).
Proof.
  intros Hclaim.
  destruct (Hclaim (sample_env (always true) None None) (request "1")
              (world_with (sample_record "initial" None JNull 0)) sample_phone
              (js "1") (sample_record "initial" None JNull 0)
              eq_refl eq_refl eq_refl eq_refl (or_introl eq_refl) eq_refl eq_refl)
    as (w' & Hrun & _).
  vm_compute in Hrun. discriminate Hrun.
Qed.

(** C1.  The first selection of a new user is not served.  A user
    writes for the first time and is welcomed with the menu; the record
    is created in the state ["initial"].  The user answers ["1"]: the
    record is found in the state ["initial"], the answer is the menu
    text again with an empty choice, no agent is written, and the only
    write moves the record to the state ["selecting"].  Only when the
    user sends ["1"] once more is Customer Service selected.  The
    store answers every call. *)
Theorem first_selection_is_not_served :
  let env := sample_env (always true) None None in
  let '(first, w1) := app_post env (request "hello") empty_world in
  let '(second, w2) := app_post env (request "1") w1 in
  let '(third, w3) := app_post env (request "1") w2 in
  first = Normal {| status := 200; body := ReplyBody false (JStr MSG_WELCOME) [] |}
  /\ state <$> db w1 !! sample_key = Some (js "initial")
  /\ second = Normal {| status := 200; body := ReplyBody true (JStr MSG_MENU) [] |}
  /\ calls_since w1 w2
     = [StoreGet sample_key;
        StorePatch sample_key
          [SetState (js "selecting"); SetLastMessage (JStr (js "1"))]]
  /\ agent <$> db w2 !! sample_key = Some None
  /\ state <$> db w2 !! sample_key = Some (js "selecting")
  /\ third = Normal {| status := 200;
                       body := ReplyBody true (JStr MSG_CONNECTED_CS)
                                 CUSTOMER_SERVICE |}
  /\ agent <$> db w3 !! sample_key = Some (Some CUSTOMER_SERVICE).
Proof. vm_compute. repeat split. Qed.

(** *** Existing users *)

(** The request of an existing user: the lookup, the inactivity check
    on what the lookup returned, the message update, and then the
    router with that record and that decision. *)
Lemma app_post_existing (env : Env) (req : Request) (w : World) (raw : list N)
    (userData : UserRecord) :
  let p := normalize_phone raw in
  let n := length (trace w) in
  let message := req_message req in
  let payload := message_payload message in
  req_phone req = Some (JStr raw) -> truthy_string raw = true ->
  store_up env n = true -> db w !! p = Some userData ->
  app_post env req w
  = let (result, w') :=
      handleAgentSelection env p (state userData) message userData
        (inactive_at (clock env (S n)) (last_activity_timestamp userData))
        (extend w (patch_if (store_up env (S n)) payload p (db w))
           [StoreGet p; StorePatch p payload]) in
    (reply_of result, w').
Proof.
  intros p n message payload Hphone Hraw Hup Hdb.
  assert (raw <> []) as Hne by (intros ->; discriminate).
  rewrite (app_post_lookup env req w raw Hphone Hne). cbv zeta.
  fold p n message. now rewrite Hup, Hdb.
Qed.

(** The same, for a message that is a string. *)
Lemma app_post_existing_text (env : Env) (req : Request) (w : World)
    (raw text : list N) (userData : UserRecord) :
  let p := normalize_phone raw in
  let n := length (trace w) in
  let payload := [SetState (js "selecting"); SetLastMessage (JStr text)] in
  req_phone req = Some (JStr raw) -> truthy_string raw = true ->
  store_up env n = true -> db w !! p = Some userData ->
  req_message req = Some (JStr text) ->
  app_post env req w
  = let (result, w') :=
      handleAgentSelection env p (state userData) (Some (JStr text)) userData
        (inactive_at (clock env (S n)) (last_activity_timestamp userData))
        (extend w (patch_if (store_up env (S n)) payload p (db w))
           [StoreGet p; StorePatch p payload]) in
    (reply_of result, w').
Proof.
  intros p n payload Hphone Hraw Hup Hdb Hmessage.
  rewrite (app_post_existing env req w raw userData Hphone Hraw Hup Hdb).
  now rewrite Hmessage.
Qed.

Lemma created_id_refused : created_id None = JNull.
Proof. reflexivity. Qed.

Lemma created_id_malformed (data : json) :
  prop data (js "data") = None -> created_id (Some data) = JNull.
Proof. intros H. unfold created_id. rewrite H. now destruct (truthy data). Qed.

(** C4.  When a message is routed to the bound agent, a new
    conversation is needed, and [createConversationId] fails (the agent
    type is unknown, the call is refused, or its answer carries no
    handle), the reply is the system-error text, the choice is the
    bound agent, no call writes a conversation handle, and the record
    keeps its handles and its agent. *)
Theorem creation_failure_reply (env : Env) (req : Request) (w : World)
    (raw text : list N) (userData : UserRecord) (a : list N) :
  let p := normalize_phone raw in
  let n := length (trace w) in
  let inactive :=
    inactive_at (clock env (S n)) (last_activity_timestamp userData) in
  req_phone req = Some (JStr raw) -> truthy_string raw = true ->
  store_up env n = true -> db w !! p = Some userData ->
  state userData = js "selecting" -> bound_to userData a ->
  req_message req = Some (JStr text) -> ~ menu_selection text ->
  inactive = true \/ truthy (handle_for a userData) = false ->
  AGENT_IDS_get a = None
    \/ created_id (agent_create_reply env (S (S n))) = JNull ->
  exists w',
    app_post env req w
      = (Normal {| status := 200;
                   body := ReplyBody true (JStr MSG_SYSTEM_ERROR) a |}, w')
    /\ forallb (fun e => negb (writes_handle e)) (calls_since w w') = true
    /\ cs_conversation_id <$> db w' !! p = Some (cs_conversation_id userData)
    /\ sales_conversation_id <$> db w' !! p = Some (sales_conversation_id userData)
    /\ agent <$> db w' !! p = Some (agent userData).
Proof.
  intros p n inactive Hphone Hraw Hup Hdb Hstate Hbound Hmessage Hmenu Hnew Hfail.
  rewrite (app_post_existing_text env req w raw text userData
             Hphone Hraw Hup Hdb Hmessage).
  fold p n inactive. rewrite Hstate.
  rewrite (run_route env w _ _ p text userData inactive a) by assumption.
  normalise_calls n.
  replace (negb (truthy (handle_for a userData)) || inactive) with true
    by (destruct Hnew as [-> | ->]; now rewrite ?orb_true_r).
  assert (Hdone : forall evs,
    forallb (fun e => negb (writes_handle e)) evs = true ->
    exists w',
      (reply_of (Normal (Some (a, JStr MSG_SYSTEM_ERROR))),
       extend w
         (patch_if (store_up env (S n))
            [SetState (js "selecting"); SetLastMessage (JStr text)] p (db w)) evs)
      = (Normal {| status := 200;
                   body := ReplyBody true (JStr MSG_SYSTEM_ERROR) a |}, w')
      /\ forallb (fun e => negb (writes_handle e)) (calls_since w w') = true
      /\ cs_conversation_id <$> db w' !! p = Some (cs_conversation_id userData)
      /\ sales_conversation_id <$> db w' !! p
         = Some (sales_conversation_id userData)
      /\ agent <$> db w' !! p = Some (agent userData)).
  { intros evs Hevs. eexists. split; [reflexivity|].
    rewrite calls_since_extend. split; [exact Hevs|].
    simpl db. rewrite lookup_patch_if, Hdb. now case_store. }
  destruct (AGENT_IDS_get a) as [agentId|] eqn:Hid.
  - destruct Hfail as [Hfail|Hfail]; [discriminate Hfail|].
    rewrite Hfail. simpl truthy. cbv iota. now apply Hdone.
  - now apply Hdone.
Qed.

Lemma creation_failure_reply_witness :
  let env := sample_env (always true) None (Some (JStr (js "hi"))) in
  let userData := sample_record "selecting" (Some CUSTOMER_SERVICE) JNull 0 in
  exists w',
    app_post env (request "hi there") (world_with userData)
      = (Normal {| status := 200;
                   body := ReplyBody true (JStr MSG_SYSTEM_ERROR)
                             CUSTOMER_SERVICE |}, w')
    /\ cs_conversation_id <$> db w' !! sample_key = Some JNull
    /\ agent <$> db w' !! sample_key = Some (Some CUSTOMER_SERVICE).
Proof.
  intros env userData.
  destruct (creation_failure_reply env (request "hi there") (world_with userData)
              sample_phone (js "hi there") userData CUSTOMER_SERVICE)
    as (w' & Hrun & _ & Hcs & _ & Hagent);
    [reflexivity | reflexivity | reflexivity | reflexivity | reflexivity
    | split; [reflexivity | discriminate]
    | reflexivity
    | intros [H|[H|H]]; discriminate H
    | left; reflexivity
    | right; reflexivity |].
  exists w'. split; [exact Hrun|]. split; [exact Hcs|exact Hagent].
Defined.

(** [createConversationId] returns [null] exactly in the cases named by
    the hypothesis of [creation_failure_reply]. *)
Lemma createConversationId_null (env : Env) (w : World)
    (d : gmap (list N) UserRecord) (evs : list Event) (a : list N) :
  (createConversationId env a (extend w d evs)).1 = JNull
  <-> AGENT_IDS_get a = None
      \/ created_id (agent_create_reply env (length evs + length (trace w))) = JNull.
Proof.
  rewrite run_createConversationId.
  destruct (AGENT_IDS_get a) as [agentId|]; simpl.
  - split; [now right|]. now intros [H|H].
  - split; [now left|reflexivity].
Qed.

(** C3.  When a message is routed to the bound agent, the first call
    of the request is the read of the record, it is the only read, and
    every write comes after it.  The inactivity decision the router
    works with is the one taken on the timestamp that read returned,
    the value the table held before the request, at the time when no
    write had been made.  For an agent type of the table of agents, a
    conversation is created exactly when that decision is [true] or the
    record has no handle. *)
Theorem inactivity_decided_before_writes (env : Env) (req : Request) (w : World)
    (raw text : list N) (userData : UserRecord) (a : list N) :
  let p := normalize_phone raw in
  let n := length (trace w) in
  let payload := [SetState (js "selecting"); SetLastMessage (JStr text)] in
  let inactive :=
    inactive_at (clock env (S n)) (last_activity_timestamp userData) in
  req_phone req = Some (JStr raw) -> truthy_string raw = true ->
  store_up env n = true -> db w !! p = Some userData ->
  state userData = js "selecting" -> bound_to userData a ->
  req_message req = Some (JStr text) -> ~ menu_selection text ->
  exists resp w' rest,
    app_post env req w = (resp, w')
    /\ calls_since w w' = StoreGet p :: StorePatch p payload :: rest
    /\ forallb (fun e => negb (is_store_get e)) rest = true
    /\ (let (result, w'') :=
          handleAgentSelection env p (js "selecting") (Some (JStr text)) userData
            inactive
            (extend w (patch_if (store_up env (S n)) payload p (db w))
               [StoreGet p; StorePatch p payload]) in
        (reply_of result, w'')) = (resp, w')
    /\ (AGENT_IDS_get a <> None ->
        creation_calls rest
        = if negb (truthy (handle_for a userData)) || inactive then 1%nat
          else 0%nat).
Proof.
  intros p n payload inactive Hphone Hraw Hup Hdb Hstate Hbound Hmessage Hmenu.
  rewrite (app_post_existing_text env req w raw text userData
             Hphone Hraw Hup Hdb Hmessage).
  fold p n inactive payload. rewrite Hstate.
  rewrite (run_route env w _ _ p text userData inactive a) by assumption.
  normalise_calls n.
  assert (Hquiet : forall id,
    forallb (fun e => negb (is_store_get e)) (chat_calls id text) = true
    /\ creation_calls (chat_calls id text) = 0%nat).
  { intros id. unfold chat_calls. now destruct (converts_to_string id). }
  destruct (negb (truthy (handle_for a userData)) || inactive).
  - destruct (AGENT_IDS_get a) as [agentId|].
    + destruct (truthy (created_id _)); eexists _, _, _;
        (split; [reflexivity|]); rewrite calls_since_extend;
        (split; [reflexivity|]).
      * split; [|split; [reflexivity|]].
        -- cbn [forallb is_store_get negb andb]. rewrite forallb_app.
           now rewrite (proj1 (Hquiet _)).
        -- intros _. unfold creation_calls.
           cbn [List.filter is_agent_create length].
           rewrite List.filter_app, length_app.
           fold (creation_calls (chat_calls
                   (created_id (agent_create_reply env (S (S n)))) text)).
           now rewrite (proj2 (Hquiet _)).
      * split; [reflexivity|]. split; reflexivity.
    + eexists _, _, []. split; [reflexivity|]. rewrite calls_since_extend.
      split; [reflexivity|]. split; [reflexivity|]. split; [reflexivity|].
      congruence.
  - eexists _, _, _. split; [reflexivity|]. rewrite calls_since_extend.
    split; [reflexivity|]. split; [|split; [reflexivity|]].
    + rewrite forallb_app. now rewrite (proj1 (Hquiet _)).
    + intros _. unfold creation_calls. rewrite List.filter_app, length_app.
      fold (creation_calls (chat_calls (handle_for a userData) text)).
      now rewrite (proj2 (Hquiet _)).
Qed.

Lemma inactivity_decided_before_writes_witness :
  let env := sample_env (always true) (Some (created_body "c2"))
               (Some (JStr (js "hi"))) in
  let userData :=
    sample_record "selecting" (Some CUSTOMER_SERVICE) (JStr (js "c1")) 0 in
  exists resp w' rest,
    app_post env (request "hi there") (world_with userData) = (resp, w')
    /\ calls_since (world_with userData) w'
       = StoreGet sample_key
         :: StorePatch sample_key
              [SetState (js "selecting"); SetLastMessage (JStr (js "hi there"))]
         :: rest
    /\ creation_calls rest = 1%nat.
Proof.
  intros env userData.
  destruct (inactivity_decided_before_writes env (request "hi there")
              (world_with userData) sample_phone (js "hi there") userData
              CUSTOMER_SERVICE)
    as (resp & w' & rest & Hrun & Hcalls & _ & _ & Hcreate);
    [reflexivity | reflexivity | reflexivity | reflexivity | reflexivity
    | split; [reflexivity | discriminate]
    | reflexivity
    | intros [H|[H|H]]; discriminate H |].
  exists resp, w', rest. split; [exact Hrun|]. split; [exact Hcalls|].
  apply Hcreate. discriminate.
Defined.

Lemma menu_selection_dec (message : list N) :
  {menu_selection message} + {~ menu_selection message}.
Proof.
  unfold menu_selection.
  destruct (decide (trim message = js "1")); [left; tauto|].
  destruct (decide (trim message = js "2")); [left; tauto|].
  destruct (decide (trim message = js "3")); [left; tauto|].
  right; tauto.
Qed.

Lemma bound_to_dec (userData : UserRecord) :
  {a | bound_to userData a}
  + {agent userData = None \/ agent userData = Some (@nil N)}.
Proof.
  unfold bound_to. destruct (agent userData) as [[|c a]|].
  - right; tauto.
  - left. exists (c :: a). split; [reflexivity|discriminate].
  - right; tauto.
Qed.

(** The message update writes [state] and [last_message] and leaves
    every other field of every record as it was. *)
Lemma updateUserMessage_frame (env : Env) (w0 : World) (p : list N)
    (message : option json) (q : list N) (r : UserRecord) :
  db w0 !! q = Some r ->
  exists r',
    db (updateUserMessage env p message w0).2 !! q = Some r'
    /\ phone r' = phone r /\ agent r' = agent r
    /\ cs_conversation_id r' = cs_conversation_id r
    /\ sales_conversation_id r' = sales_conversation_id r
    /\ last_activity_timestamp r' = last_activity_timestamp r.
Proof.
  intros Hq. unfold updateUserMessage, store_patch.
  destruct (store_up env _); simpl.
  - destruct (decide (p = q)) as [->|Hne].
    + rewrite lookup_alter_eq, Hq. eexists. split; [reflexivity|].
      now destruct message.
    + rewrite lookup_alter_ne, Hq by assumption.
      eexists. split; [reflexivity|]. tauto.
  - rewrite Hq. eexists. split; [reflexivity|]. tauto.
Qed.

(** C6.  In the request of an existing user the message update comes
    right after the lookup; its payload is [state] and [last_message]
    only and it leaves the other fields of the record alone.  A later
    call of the request writes [last_activity_timestamp] only if the
    state is ["selecting"] and the message is a menu selection or the
    user is bound to an agent.  A message that is no selection, from a
    user without an agent, causes no further call and leaves the
    timestamp as it was. *)
Theorem timestamp_written_on_agent_events (env : Env) (req : Request) (w : World)
    (raw text : list N) (userData : UserRecord) :
  let p := normalize_phone raw in
  let n := length (trace w) in
  let payload := [SetState (js "selecting"); SetLastMessage (JStr text)] in
  req_phone req = Some (JStr raw) -> truthy_string raw = true ->
  store_up env n = true -> db w !! p = Some userData ->
  req_message req = Some (JStr text) ->
  exists resp w' rest,
    app_post env req w = (resp, w')
    /\ calls_since w w' = StoreGet p :: StorePatch p payload :: rest
    /\ (existsb writes_timestamp rest = true ->
        state userData = js "selecting"
        /\ (menu_selection text \/ exists a, bound_to userData a))
    /\ (~ menu_selection text ->
        agent userData = None \/ agent userData = Some [] ->
        rest = []
        /\ last_activity_timestamp <$> db w' !! p
           = Some (last_activity_timestamp userData))
    /\ (forall (w0 : World) (q : list N) (r : UserRecord),
        db w0 !! q = Some r ->
        exists r',
          db (updateUserMessage env p (req_message req) w0).2 !! q = Some r'
          /\ phone r' = phone r /\ agent r' = agent r
          /\ cs_conversation_id r' = cs_conversation_id r
          /\ sales_conversation_id r' = sales_conversation_id r
          /\ last_activity_timestamp r' = last_activity_timestamp r).
Proof.
  intros p n payload Hphone Hraw Hup Hdb Hmessage.
  rewrite (app_post_existing_text env req w raw text userData
             Hphone Hraw Hup Hdb Hmessage).
  fold p n payload.
  assert (Hquiet : forall result,
    exists resp w' rest,
      (reply_of result,
       extend w (patch_if (store_up env (S n)) payload p (db w))
         [StoreGet p; StorePatch p payload]) = (resp, w')
      /\ calls_since w w' = StoreGet p :: StorePatch p payload :: rest
      /\ rest = []
      /\ last_activity_timestamp <$> db w' !! p
         = Some (last_activity_timestamp userData)).
  { intros result. eexists _, _, []. split; [reflexivity|].
    rewrite calls_since_extend. split; [reflexivity|]. split; [reflexivity|].
    simpl db. rewrite lookup_patch_if, Hdb. now case_store. }
  assert (Hframe :=
    fun w0 q r => updateUserMessage_frame env w0 p (req_message req) q r).
  destruct (decide (state userData = js "selecting")) as [Hstate|Hstate].
  - rewrite Hstate.
    destruct (menu_selection_dec text) as [Hmenu|Hmenu].
    + destruct (run_selection env w (patch_if (store_up env (S n)) payload p (db w))
                  [StoreGet p; StorePatch p payload] p text userData
                  (inactive_at (clock env (S n)) (last_activity_timestamp userData))
                  Hmenu)
        as (choice & reply & _ & ->).
      eexists _, _, _. split; [reflexivity|]. rewrite calls_since_extend.
      split; [reflexivity|]. split; [tauto|]. split; [tauto|exact Hframe].
    + destruct (bound_to_dec userData) as [[a Ha]|Hfree].
      * rewrite (run_route env w _ _ p text userData _ a) by assumption.
        normalise_calls n.
        assert (Hbusy : forall result d evs,
          exists resp w' rest,
            (reply_of result,
             extend w d (StoreGet p :: StorePatch p payload :: evs)) = (resp, w')
            /\ calls_since w w' = StoreGet p :: StorePatch p payload :: rest
            /\ (existsb writes_timestamp rest = true ->
                js "selecting" = js "selecting"
                /\ (menu_selection text \/ exists a, bound_to userData a))
            /\ (~ menu_selection text ->
                agent userData = None \/ agent userData = Some [] ->
                rest = []
                /\ last_activity_timestamp <$> db w' !! p
                   = Some (last_activity_timestamp userData))).
        { intros result d evs. eexists _, _, _. split; [reflexivity|].
          rewrite calls_since_extend. split; [reflexivity|].
          split; [intros _; split; eauto|].
          intros _ [Hnone|Hnone]; destruct Ha as [Ha Hne]; congruence. }
        destruct (negb (truthy (handle_for a userData)) || _);
          [destruct (AGENT_IDS_get a) as [agentId|];
           [destruct (truthy (created_id _))|]|];
          match goal with
          | |- context [(reply_of ?result, extend w ?d (_ :: _ :: ?evs))] =>
              destruct (Hbusy result d evs)
                as (resp & w' & rest & Hrun & Hcalls & Hts & Hkeep)
          end;
          exists resp, w', rest; (split; [exact Hrun|]);
          (split; [exact Hcalls|]); (split; [exact Hts|]);
          (split; [exact Hkeep|exact Hframe]).
      * rewrite run_prompt by assumption.
        destruct (Hquiet (Normal (Some (js "INVALID", JStr MSG_SELECT_AGENT))))
          as (resp & w' & rest & Hrun & Hcalls & -> & Hts).
        exists resp, w', []. split; [exact Hrun|]. split; [exact Hcalls|].
        split; [discriminate|]. split; [tauto|exact Hframe].
  - rewrite run_not_selecting by assumption.
    destruct (Hquiet (Normal None)) as (resp & w' & rest & Hrun & Hcalls & -> & Hts).
    exists resp, w', []. split; [exact Hrun|]. split; [exact Hcalls|].
    split; [discriminate|]. split; [tauto|exact Hframe].
Qed.

Lemma timestamp_written_on_agent_events_witness :
  let env := sample_env (always true) None None in
  let userData := sample_record "selecting" None JNull 0 in
  exists resp w',
    app_post env (request "hello again") (world_with userData) = (resp, w')
    /\ calls_since (world_with userData) w'
       = [StoreGet sample_key;
          StorePatch sample_key
            [SetState (js "selecting"); SetLastMessage (JStr (js "hello again"))]]
    /\ last_activity_timestamp <$> db w' !! sample_key = Some (Some 0%Z).
Proof.
  intros env userData.
  destruct (timestamp_written_on_agent_events env (request "hello again")
              (world_with userData) sample_phone (js "hello again") userData)
    as (resp & w' & rest & Hrun & Hcalls & _ & Hquiet & _);
    [reflexivity | reflexivity | reflexivity | reflexivity | reflexivity |].
  destruct Hquiet as [Hrest Hts];
    [intros [H|[H|H]]; discriminate H | left; reflexivity |].
  exists resp, w'. split; [exact Hrun|]. split; [|exact Hts].
  rewrite Hcalls, Hrest. reflexivity.
Defined.

(** ** Every request takes one of the paths *)

Lemma phone_cases (req : Request) :
  {phone_missing req} + {phone_not_string req}
  + {raw | req_phone req = Some (JStr raw) /\ raw <> @nil N}.
Proof.
  unfold phone_missing, phone_not_string.
  destruct (req_phone req) as [[|b|k|raw|items|members]|]; simpl.
  - left; left; reflexivity.
  - destruct b; [left; right; split; [reflexivity|discriminate]
                |left; left; reflexivity].
  - destruct (k =? 0)%Z; [left; left; reflexivity
                         |left; right; split; [reflexivity|discriminate]].
  - destruct raw as [|c raw]; [left; left; reflexivity|].
    right. exists (c :: raw). split; [reflexivity|discriminate].
  - left; right; split; [reflexivity|discriminate].
  - left; right; split; [reflexivity|discriminate].
  - left; left; reflexivity.
Qed.

Lemma message_cases (req : Request) :
  {text | req_message req = Some (JStr text)} + {message_not_string req}.
Proof.
  unfold message_not_string.
  destruct (req_message req) as [[| | |text| |]|];
    try (right; discriminate).
  left. now exists text.
Qed.

Lemma phone_given_key (req : Request) (raw : list N) :
  req_phone req = Some (JStr raw) -> request_key req = normalize_phone raw.
Proof. intros H. unfold request_key. now rewrite H. Qed.

(** A request without a usable phone is answered at once. *)
Lemma app_post_missing (env : Env) (req : Request) (w : World) :
  phone_missing req ->
  app_post env req w
  = (Normal {| status := 400; body := ErrorBody MSG_PHONE_MISSING |}, w).
Proof. intros H. unfold app_post. now rewrite H. Qed.

(** A phone that is truthy and no string makes [rawPhone.replace]
    throw, before any call. *)
Lemma app_post_phone_not_string (env : Env) (req : Request) (w : World) :
  phone_not_string req -> app_post env req w = (Throw, w).
Proof.
  intros [Hfalsy Hnot]. unfold app_post. rewrite Hfalsy.
  destruct (req_phone req) as [[| | |raw| |]|]; try reflexivity.
  now destruct (Hnot raw).
Qed.

Lemma app_post_handled (env : Env) (req : Request) (w : World) :
  handled env req w (app_post env req w).
Proof.
  destruct (phone_cases req) as [[Hmissing|Hnot]|(raw & Hphone & Hne)].
  { rewrite app_post_missing by assumption. now apply handled_missing. }
  { rewrite app_post_phone_not_string by assumption.
    now apply handled_phone_not_string. }
  assert (Hok : phone_given req) by (now exists raw).
  rewrite (app_post_lookup env req w raw Hphone Hne). cbv zeta.
  rewrite <- (phone_given_key req raw Hphone).
  set (p := request_key req). set (n := length (trace w)).
  set (message := req_message req).
  assert (Hcreate :
    store_up env n = false \/ db w !! p = None ->
    handled env req w
      (let (created, w') :=
         createUser env p message (extend w (db w) [StoreGet p]) in
       (Normal {| status := 200;
                  body := ReplyBody false
                            (JStr (if created then MSG_WELCOME
                                   else MSG_REQUEST_ERROR)) [] |},
        w'))).
  { intros Hnot. rewrite run_createUser. cbv zeta.
    change (length [StoreGet p] + length (trace w))%nat with (S n).
    destruct (store_up env (S n)) eqn:Hup2;
      [destruct (db w !! p) as [r|] eqn:Hp|].
    - apply handled_not_created; [assumption| |].
      + destruct Hnot as [H|H]; [now left|discriminate H].
      + right. fold p. rewrite Hp. discriminate.
    - apply handled_created; try assumption. now right.
    - apply handled_not_created; try assumption. now left. }
  destruct (store_up env n) eqn:Hup; [|apply Hcreate; now left].
  destruct (db w !! p) as [userData|] eqn:Hdb; [|apply Hcreate; now right].
  clear Hcreate.
  assert (Hfound : found env req w userData) by (unfold found; auto).
  destruct (decide (state userData = js "selecting")) as [Hstate|Hstate];
    [|rewrite run_not_selecting by assumption;
      now apply (handled_not_selecting env req w userData)].
  rewrite Hstate.
  destruct (message_cases req) as [[text Hmessage]|Hmessage];
    [|rewrite run_not_string by exact Hmessage;
      now apply (handled_message_not_string env req w userData)].
  subst message. rewrite Hmessage.
  destruct (menu_selection_dec text) as [Hmenu|Hmenu].
  - destruct (run_selection env w
                (patch_if (store_up env (S n))
                   (message_payload (Some (JStr text))) p (db w))
                [StoreGet p; StorePatch p (message_payload (Some (JStr text)))]
                p text userData
                (inactive_at (clock env (S n)) (last_activity_timestamp userData))
                Hmenu)
      as (choice & reply & Hcase & ->).
    rewrite <- Hmessage.
    now apply (handled_selection env req w userData text choice reply).
  - destruct (bound_to_dec userData) as [[a Ha]|Hfree].
    + rewrite (run_route env w _ _ p text userData _ a) by assumption.
      normalise_calls n. rewrite <- Hmessage.
      destruct (negb (truthy (handle_for a userData)) || _) eqn:Hnew.
      * destruct (AGENT_IDS_get a) as [agentId|] eqn:Hid.
        -- destruct (truthy (created_id _)) eqn:Hcreated.
           ++ now apply (handled_new_conversation env req w userData text a agentId).
           ++ now apply (handled_creation_failed env req w userData text a agentId).
        -- now apply (handled_unknown_agent env req w userData text a).
      * apply orb_false_iff in Hnew as [Hhandle Hinactive].
        apply negb_false_iff in Hhandle.
        now apply (handled_reuse env req w userData text a).
    + rewrite run_prompt by assumption. rewrite <- Hmessage.
      now apply (handled_prompt env req w userData text).
Qed.

(** ** Requests that are not served *)

Lemma phone_given_not_missing (req : Request) :
  phone_given req -> ~ phone_missing req /\ ~ phone_not_string req.
Proof.
  intros (raw & Hphone & Hne). unfold phone_missing, phone_not_string.
  rewrite Hphone. split.
  - destruct raw; [congruence|discriminate].
  - intros [_ Hnot]. now destruct (Hnot raw).
Qed.

Lemma phone_missing_not_string (req : Request) :
  phone_missing req -> ~ phone_not_string req.
Proof. unfold phone_missing, phone_not_string. intros -> [H _]. discriminate H. Qed.

Lemma found_same (env : Env) (req : Request) (w : World) (u u' : UserRecord) :
  found env req w u -> found env req w u' -> u = u'.
Proof. intros (_ & _ & H) (_ & _ & H'). congruence. Qed.

(** The handler throws exactly at the requests of [throws]; at every
    other request it sends an answer. *)
Lemma app_post_throws (env : Env) (req : Request) (w : World) :
  (app_post env req w).1 = Throw <-> throws env req w.
Proof.
  unfold throws.
  destruct (app_post_handled env req w) as
    [Hmissing|Hnot|Hgiven Hlookup|Hgiven Hlookup|u Hfound Hstate
    |u Hfound Hstate Hmessage|u text ? ? Hfound Hstate Hmessage
    |u text Hfound Hstate Hmessage|u text ? Hfound Hstate Hmessage
    |u text ? ? Hfound Hstate Hmessage|u text ? ? Hfound Hstate Hmessage
    |u text ? Hfound Hstate Hmessage];
    cbv zeta; cbn [fst];
    try (split; [discriminate|];
         intros [Hbad|(u' & Hfound' & Hstate' & Hmessage')]; exfalso).
  all: try (eapply phone_missing_not_string; eassumption).
  all: try (destruct (phone_given_not_missing req (proj1 Hfound')); contradiction).
  all: try (destruct (phone_given_not_missing req Hgiven); contradiction).
  all: try (destruct (phone_given_not_missing req (proj1 Hfound)); contradiction).
  all: try (exact (Hmessage' text Hmessage)).
  all: try (destruct Hfound' as (_ & Hup' & Hdb');
            destruct Hlookup as [Hdown|Hnone]; congruence).
  - split; [now left|reflexivity].
  - rewrite (found_same env req w u u') in Hstate by assumption. contradiction.
  - split; [|reflexivity]. intros _. right. now exists u.
Qed.

(** An answer has the status 400 for a request without a usable phone,
    and 200 otherwise. *)
Lemma app_post_status (env : Env) (req : Request) (w : World)
    (resp : HttpResponse) :
  (app_post env req w).1 = Normal resp ->
  phone_missing req
  /\ resp = {| status := 400; body := ErrorBody MSG_PHONE_MISSING |}
  \/ phone_given req /\ status resp = 200%Z.
Proof.
  destruct (app_post_handled env req w); cbv zeta; cbn [fst];
    try discriminate; intros [= <-];
    try (left; split; [assumption|reflexivity]);
    right; (split; [|reflexivity]);
    try assumption;
    match goal with H : found _ _ _ _ |- _ => exact (proj1 H) end.
Qed.



Example missing_message_throws :
  let req := {| req_phone := Some (JStr sample_phone); req_message := None |} in
  let '(outcome, w') := app_post session_env req bound_world in
  outcome = Throw
  /\ calls_since bound_world w'
     = [StoreGet sample_key; StorePatch sample_key [SetState (js "selecting")]].
Proof. vm_compute. split; reflexivity. Qed.

Example phone_not_string_throws :
  app_post session_env
    {| req_phone := Some (JNum 62812345678); req_message := Some (JStr (js "1")) |}
    bound_world
  = (Throw, bound_world).
Proof. reflexivity. Qed.

Example phone_missing_examples :
  phone_missing {| req_phone := None; req_message := Some (JStr (js "1")) |}
  /\ phone_missing {| req_phone := Some (JStr []); req_message := None |}
  /\ phone_missing {| req_phone := Some JNull; req_message := None |}
  /\ phone_missing {| req_phone := Some (JNum 0); req_message := None |}.
Proof. repeat split. Qed.

(** ** What holds of every reachable table *)

Lemma harmless_update (r : UserRecord) (u : FieldUpdate) :
  harmless u = true -> bound_in_menu r -> bound_in_menu (apply_update r u).
Proof.
  unfold bound_in_menu, bound_to. intros Hu Hr a.
  destruct u; simpl in *; try discriminate Hu; try exact (Hr a).
  apply bool_decide_eq_true in Hu as ->. intros Ha.
  split; [reflexivity|]. now apply Hr.
Qed.

Lemma harmless_patch (payload : list FieldUpdate) (r : UserRecord) :
  forallb harmless payload = true ->
  bound_in_menu r -> bound_in_menu (apply_patch payload r).
Proof.
  unfold apply_patch. revert r.
  induction payload as [|u payload IH]; intros r Hall Hr; [exact Hr|].
  simpl in *. apply andb_true_iff in Hall as [Hu Hall].
  apply IH; [exact Hall|]. now apply harmless_update.
Qed.

Lemma table_ok_patch_if (served : bool) (payload : list FieldUpdate) (p : list N)
    (d : gmap (list N) UserRecord) :
  table_ok d ->
  (forall r, d !! p = Some r -> bound_in_menu (apply_patch payload r)) ->
  table_ok (patch_if served payload p d).
Proof.
  intros Hd Hp q r. unfold patch_if. destruct served; [|apply Hd].
  destruct (decide (p = q)) as [<-|Hne].
  - rewrite lookup_alter_eq. destruct (d !! p) as [r0|] eqn:Hr0; [|discriminate].
    intros [= <-]. now apply Hp.
  - rewrite lookup_alter_ne by assumption. apply Hd.
Qed.

Lemma table_ok_harmless (served : bool) (payload : list FieldUpdate) (p : list N)
    (d : gmap (list N) UserRecord) :
  forallb harmless payload = true ->
  table_ok d -> table_ok (patch_if served payload p d).
Proof.
  intros Hall Hd. apply table_ok_patch_if; [exact Hd|].
  intros r Hr. apply harmless_patch; [exact Hall|]. exact (Hd p r Hr).
Qed.

Lemma harmless_set_handle (a : list N) (id : json) (t : Z) :
  forallb harmless [set_handle a id; SetLastActivityTimestamp t] = true.
Proof. unfold set_handle. now destruct (decide _). Qed.

Lemma table_ok_select (served : bool) (choice p : list N)
    (d : gmap (list N) UserRecord) :
  choice = CUSTOMER_SERVICE \/ choice = SALES \/ choice = [] ->
  (forall r, d !! p = Some r -> state r = js "selecting") ->
  table_ok d -> table_ok (patch_if served [SetAgent choice] p d).
Proof.
  intros Hchoice Hstate Hd. apply table_ok_patch_if; [exact Hd|].
  intros r Hr a [Ha Hne]. simpl in Ha. injection Ha as <-.
  split; [simpl; now apply Hstate|]. tauto.
Qed.

Lemma harmless_message_payload (message : option json) :
  forallb harmless (message_payload message) = true.
Proof. now destruct message. Qed.

Lemma state_after_message (served : bool) (message : option json) (p : list N)
    (d : gmap (list N) UserRecord) (userData r : UserRecord) :
  d !! p = Some userData -> state userData = js "selecting" ->
  patch_if served (message_payload message) p d !! p = Some r ->
  state r = js "selecting".
Proof.
  intros Hdb Hstate. rewrite lookup_patch_if, Hdb.
  destruct served, message; intros [= <-]; try reflexivity; exact Hstate.
Qed.

(** The handler keeps the table well formed. *)
Lemma app_post_table_ok (env : Env) (req : Request) (w : World) :
  table_ok (db w) -> table_ok (db (app_post env req w).2).
Proof.
  intros Hw.
  assert (Hd1 : table_ok
    (patch_if (store_up env (S (length (trace w))))
       (message_payload (req_message req)) (request_key req) (db w)))
    by (apply table_ok_harmless; [apply harmless_message_payload|exact Hw]).
  destruct (app_post_handled env req w) as
    [ | | | | | | userData text choice reply Hfound Hstate Hmessage Hcase
    | | | | | ];
    cbv zeta; cbn [snd db extend]; try assumption.
  - intros q r. destruct (decide (request_key req = q)) as [<-|Hne].
    + rewrite lookup_insert_eq. intros [= <-] a [Ha _]. discriminate Ha.
    + rewrite lookup_insert_ne by assumption. apply Hw.
  - apply table_ok_harmless; [reflexivity|].
    apply table_ok_select; [tauto| |exact Hd1].
    destruct Hfound as (_ & _ & Hdb). intros r.
    now apply (state_after_message _ _ _ _ userData).
  - apply table_ok_harmless; [reflexivity|].
    apply table_ok_harmless; [apply harmless_set_handle|exact Hd1].
  - apply table_ok_harmless; [reflexivity|exact Hd1].
Qed.

(** Every reachable table is well formed: a user bound to an agent is
    in the state ["selecting"], bound to Customer Service or Sales. *)
Lemma reachable_table_ok (w : World) : reachable w -> table_ok (db w).
Proof.
  induction 1 as [|env req w _ IH].
  - intros q r Hq. simpl in Hq. now rewrite lookup_empty in Hq.
  - now apply app_post_table_ok.
Qed.

(** ** Conversations of a bound user *)

Lemma known_agent_id (a : list N) :
  a = CUSTOMER_SERVICE \/ a = SALES ->
  exists id, AGENT_IDS_get a = Some (Some (JStr id)).
Proof. intros [-> | ->]; eexists; reflexivity. Qed.

Lemma chat_calls_sent (id : json) (text : list N) :
  converts_to_string id = true -> chat_calls id text = [AgentChat id text].
Proof. intros H. unfold chat_calls. now rewrite H. Qed.

Lemma creation_calls_chat (id : json) (text : list N) (evs : list Event) :
  creation_calls (chat_calls id text ++ evs) = creation_calls evs.
Proof. unfold chat_calls. now destruct (converts_to_string id). Qed.

(** The calls of a routed request, for a record in the state
    ["selecting"] and an agent type the table of agents knows. *)
Lemma route_creates_or_reuses (env : Env) (req : Request) (w : World)
    (raw text : list N) (userData : UserRecord) (a : list N)
    (agentId : option json) :
  let p := normalize_phone raw in
  let n := length (trace w) in
  let first :=
    [StoreGet p;
     StorePatch p [SetState (js "selecting"); SetLastMessage (JStr text)]] in
  let inactive :=
    inactive_at (clock env (S n)) (last_activity_timestamp userData) in
  let handle := handle_for a userData in
  req_phone req = Some (JStr raw) -> truthy_string raw = true ->
  store_up env n = true -> db w !! p = Some userData ->
  state userData = js "selecting" -> bound_to userData a ->
  AGENT_IDS_get a = Some agentId ->
  req_message req = Some (JStr text) -> ~ menu_selection text ->
  exists resp w',
    app_post env req w = (resp, w')
    /\ (inactive = true \/ truthy handle = false ->
        let id := created_id (agent_create_reply env (S (S n))) in
        let persist :=
          [set_handle a id; SetLastActivityTimestamp (clock env (S (S (S n))))] in
        let sent := chat_calls id text in
        let refresh :=
          [SetLastActivityTimestamp
             (clock env (length sent + S (S (S (S n)))))] in
        creation_calls (calls_since w w') = 1%nat
        /\ (id <> JNull ->
            calls_since w w'
            = first ++ [AgentCreate agentId; StorePatch p persist]
                ++ sent ++ [StorePatch p refresh]
            /\ handle_for a <$> db w' !! p
               = Some (if store_up env (S (S (S n))) then id else handle))
        /\ (id = JNull ->
            calls_since w w' = first ++ [AgentCreate agentId]
            /\ handle_for a <$> db w' !! p = Some handle))
    /\ (inactive = false /\ truthy handle = true ->
        let sent := chat_calls handle text in
        let refresh :=
          [SetLastActivityTimestamp (clock env (length sent + S (S n)))] in
        creation_calls (calls_since w w') = 0%nat
        /\ calls_since w w' = first ++ sent ++ [StorePatch p refresh]
        /\ handle_for a <$> db w' !! p = Some handle).
Proof.
  intros p n first inactive handle
    Hphone Hraw Hup Hdb Hstate Hbound Hid Hmessage Hmenu.
  rewrite (app_post_existing_text env req w raw text userData
             Hphone Hraw Hup Hdb Hmessage).
  fold p n inactive. rewrite Hstate.
  rewrite (run_route env w _ _ p text userData inactive a) by assumption.
  normalise_calls n. fold handle. rewrite Hid.
  destruct (negb (truthy handle) || inactive) eqn:Hnew.
  - destruct (truthy (created_id _)) eqn:Hcreated;
      eexists _, _; (split; [reflexivity|]); rewrite calls_since_extend;
      (split; [|intros [-> Hhandle]; rewrite Hhandle in Hnew; discriminate Hnew]);
      intros _; cbv zeta; split.
    + unfold creation_calls at 1. cbn [List.filter is_agent_create length].
      fold (creation_calls
              (chat_calls (created_id (agent_create_reply env (S (S n)))) text
               ++ [StorePatch p
                     [SetLastActivityTimestamp
                        (clock env
                           (length (chat_calls
                                      (created_id (agent_create_reply env (S (S n))))
                                      text) + S (S (S (S n)))))]])).
      now rewrite creation_calls_chat.
    + split.
      * intros _. split; [reflexivity|].
        simpl db. fold n. rewrite !lookup_patch_if, Hdb. subst handle.
        case_store; unfold handle_for, set_handle; simpl;
          now destruct (decide (a = CUSTOMER_SERVICE)).
      * intros Hnull. rewrite Hnull in Hcreated. discriminate Hcreated.
    + reflexivity.
    + split.
      * intros Hnull. apply created_id_truthy in Hnull. congruence.
      * intros _. split; [reflexivity|].
        simpl db. rewrite lookup_patch_if, Hdb. now case_store.
  - apply orb_false_iff in Hnew as [Hhandle Hinactive].
    apply negb_false_iff in Hhandle.
    eexists _, _. split; [reflexivity|]. rewrite calls_since_extend.
    split; [intros [H|H]; congruence|].
    intros _. cbv zeta. split; [|split; [reflexivity|]].
    + unfold creation_calls at 1. cbn [List.filter is_agent_create length].
      fold (creation_calls
              (chat_calls handle text
               ++ [StorePatch p
                     [SetLastActivityTimestamp
                        (clock env (length (chat_calls handle text) + S (S n)))]])).
      now rewrite creation_calls_chat.
    + simpl db. rewrite !lookup_patch_if, Hdb. now case_store.
Qed.

(** C2, as amended.  A user bound to an agent sends a message that is
    no menu selection.  If the inactivity check is true or the record
    has no handle for the agent, exactly one create-conversation call
    is made.  When it returns a handle, the handler writes that handle
    into the slot of the agent and then sends the message under the
    new handle, whatever the store answered to the write: the record
    holds the new handle if the store accepted the write and keeps what
    it had if not.  When it returns no handle, nothing is written and
    nothing is sent.  If the check is false and the record has a
    handle, no create-conversation call is made and the message is sent
    under the handle of the record, which stays.  A message is sent by
    one chat call, except under a handle that has no conversion to a
    string, for which no call is made. *)
Theorem bound_user_conversation (env : Env) (req : Request) (w : World)
    (raw text : list N) (userData : UserRecord) (a : list N) :
  let p := normalize_phone raw in
  let n := length (trace w) in
  let first :=
    [StoreGet p;
     StorePatch p [SetState (js "selecting"); SetLastMessage (JStr text)]] in
  let inactive :=
    inactive_at (clock env (S n)) (last_activity_timestamp userData) in
  let handle := handle_for a userData in
  reachable w ->
  req_phone req = Some (JStr raw) -> truthy_string raw = true ->
  store_up env n = true -> db w !! p = Some userData ->
  bound_to userData a ->
  req_message req = Some (JStr text) -> ~ menu_selection text ->
  exists resp w' agentId,
    app_post env req w = (resp, w')
    /\ AGENT_IDS_get a = Some (Some (JStr agentId))
    /\ (inactive = true \/ truthy handle = false ->
        let id := created_id (agent_create_reply env (S (S n))) in
        let persist :=
          [set_handle a id; SetLastActivityTimestamp (clock env (S (S (S n))))] in
        let sent := chat_calls id text in
        let refresh :=
          [SetLastActivityTimestamp
             (clock env (length sent + S (S (S (S n)))))] in
        creation_calls (calls_since w w') = 1%nat
        /\ (id <> JNull ->
            calls_since w w'
            = first ++ [AgentCreate (Some (JStr agentId)); StorePatch p persist]
                ++ sent ++ [StorePatch p refresh]
            /\ handle_for a <$> db w' !! p
               = Some (if store_up env (S (S (S n))) then id else handle))
        /\ (id = JNull ->
            calls_since w w' = first ++ [AgentCreate (Some (JStr agentId))]
            /\ handle_for a <$> db w' !! p = Some handle))
    /\ (inactive = false /\ truthy handle = true ->
        let sent := chat_calls handle text in
        let refresh :=
          [SetLastActivityTimestamp (clock env (length sent + S (S n)))] in
        creation_calls (calls_since w w') = 0%nat
        /\ calls_since w w' = first ++ sent ++ [StorePatch p refresh]
        /\ handle_for a <$> db w' !! p = Some handle)
    /\ (forall id, converts_to_string id = true ->
        chat_calls id text = [AgentChat id text]).
Proof.
  intros p n first inactive handle
    Hreach Hphone Hraw Hup Hdb Hbound Hmessage Hmenu.
  destruct (reachable_table_ok w Hreach p userData Hdb a Hbound) as [Hstate Hknown].
  destruct (known_agent_id a Hknown) as [agentId Hid].
  destruct (route_creates_or_reuses env req w raw text userData a
              (Some (JStr agentId))
              Hphone Hraw Hup Hdb Hstate Hbound Hid Hmessage Hmenu)
    as (resp & w' & Hrun & Hnew & Hreuse).
  exists resp, w', agentId.
  split; [exact Hrun|]. split; [exact Hid|]. split; [exact Hnew|].
  split; [exact Hreuse|]. intros id. apply chat_calls_sent.
Qed.

Lemma bound_user_conversation_witness :
  let w1 := (app_post session_env (request "hi there") bound_world).2 in
  let w2 := (app_post session_env (request "again") w1).2 in
  (creation_calls (calls_since bound_world w1) = 1%nat
   /\ handle_for CUSTOMER_SERVICE <$> db w1 !! sample_key = Some (JStr (js "c1")))
  /\ (creation_calls (calls_since w1 w2) = 0%nat
      /\ handle_for CUSTOMER_SERVICE <$> db w2 !! sample_key
         = Some (JStr (js "c1"))).
Proof.
  intros w1 w2. split.
  - destruct (bound_user_conversation session_env (request "hi there") bound_world
                sample_phone (js "hi there") (bound_record JNull "1" 1007000)
                CUSTOMER_SERVICE)
      as (resp & w' & agentId & Hrun & _ & Hnew & _);
      [repeat apply reachable_request; apply reachable_start
      | reflexivity | reflexivity | reflexivity | reflexivity
      | split; [reflexivity | discriminate]
      | reflexivity
      | intros [H|[H|H]]; discriminate H |].
    destruct Hnew as (Hcount & Hsent & _); [right; reflexivity|].
    destruct Hsent as [_ Hhandle]; [discriminate|].
    subst w1. rewrite Hrun. split; [exact Hcount|exact Hhandle].
  - destruct (bound_user_conversation session_env (request "again") w1
                sample_phone (js "again")
                (bound_record (JStr (js "c1")) "hi there" 1013000)
                CUSTOMER_SERVICE)
      as (resp & w' & agentId & Hrun & _ & _ & Hreuse & _);
      [repeat apply reachable_request; apply reachable_start
      | reflexivity | reflexivity | reflexivity | reflexivity
      | split; [reflexivity | discriminate]
      | reflexivity
      | intros [H|[H|H]]; discriminate H |].
    destruct Hreuse as (Hcount & _ & Hhandle); [split; reflexivity|].
    subst w2. rewrite Hrun. split; [exact Hcount|exact Hhandle].
Defined.

(** A handle that has no string form is accepted and written to the
    record, but no message is sent under it: the answer is the apology
    text of [chatWithAgent], and the timestamp is refreshed. *)
Example object_handle_is_not_used :
  let '(outcome, w') :=
    app_post object_handle_env (request "hi there") bound_world in
  outcome
  = Normal {| status := 200;
              body := ReplyBody true (JStr MSG_AGENT_ERROR) CUSTOMER_SERVICE |}
  /\ calls_since bound_world w'
     = [StoreGet sample_key;
        StorePatch sample_key
          [SetState (js "selecting"); SetLastMessage (JStr (js "hi there"))];
        AgentCreate (Some (JStr (js "948aad98-7c1a-4c07-830a-82125d85543c")));
        StorePatch sample_key
          [SetCsConversationId object_handle; SetLastActivityTimestamp 1011000];
        StorePatch sample_key [SetLastActivityTimestamp 1012000]].
Proof. vm_compute. split; reflexivity. Qed.

Example talked_world_record :
  length (trace talked_world) = 14%nat
  /\ db talked_world !! sample_key
     = Some (bound_record (JStr (js "c1")) "hi there" 1013000).
Proof. vm_compute. split; reflexivity. Qed.

Example refused_write_calls :
  calls_since talked_world (app_post refusing_env (request "again") talked_world).2
  = [StoreGet sample_key;
     StorePatch sample_key
       [SetState (js "selecting"); SetLastMessage (JStr (js "again"))];
     AgentCreate (Some (JStr (js "948aad98-7c1a-4c07-830a-82125d85543c")));
     StorePatch sample_key
       [SetCsConversationId (JStr (js "c2")); SetLastActivityTimestamp 2000000];
     AgentChat (JStr (js "c2")) (js "again");
     StorePatch sample_key [SetLastActivityTimestamp 2000000]].
Proof. vm_compute. reflexivity. Qed.

Example refused_write_record :
  handle_for CUSTOMER_SERVICE
    <$> db (app_post refusing_env (request "again") talked_world).2
          !! normalize_phone sample_phone
  = Some (JStr (js "c1")).
Proof. vm_compute. reflexivity. Qed.

(** C2 as first stated fails when the store refuses the write of the
    new handle, the result of which the handler does not look at.  The
    user of [talked_world] has the conversation [c1] and has been
    silent for longer than the threshold; the agent API opens the
    conversation [c2]; the store answers every call of the request but
    the write of the handle.  The message goes out under [c2], and the
    record still holds [c1]. *)
Lemma new_handle_not_persisted :
  ~ (forall (env : Env) (req : Request) (w : World) (raw text : list N)
            (userData : UserRecord) (a : list N),
       reachable w ->
       req_phone req = Some (JStr raw) -> truthy_string raw = true ->
       store_up env (length (trace w)) = true ->
       db w !! normalize_phone raw = Some userData ->
       bound_to userData a ->
       req_message req = Some (JStr text) -> ~ menu_selection text ->
       inactive_at (clock env (S (length (trace w))))
         (last_activity_timestamp userData) = true
       \/ truthy (handle_for a userData) = false ->
       exists w' id,
         (app_post env req w).2 = w'
         /\ creation_calls (calls_since w w') = 1%nat
         /\ In (AgentChat id text) (calls_since w w')
         /\ handle_for a <$> db w' !! normalize_phone raw = Some id).
Proof.
  intros Hclaim.
  destruct (Hclaim refusing_env (request "again") talked_world sample_phone
              (js "again") (bound_record (JStr (js "c1")) "hi there" 1013000)
              CUSTOMER_SERVICE)
    as (w' & id & <- & _ & Hsent & Hheld);
    [repeat apply reachable_request; apply reachable_start
    | reflexivity | reflexivity
    | now rewrite (proj1 talked_world_record)
    | exact (proj2 talked_world_record)
    | split; [reflexivity | discriminate]
    | reflexivity
    | intros [H|[H|H]]; discriminate H
    | left; now rewrite (proj1 talked_world_record) |].
  rewrite refused_write_record in Hheld. injection Hheld as <-.
  rewrite refused_write_calls in Hsent.
  destruct Hsent as [H|[H|[H|[H|[H|[H|[]]]]]]]; discriminate H.
Qed.

(** * Further properties of the handler *)

Lemma calls_since_same (w : World) : calls_since w w = [].
Proof. unfold calls_since. apply drop_all. Qed.

Lemma lookup_patch_if_ne (served : bool) (payload : list FieldUpdate)
    (p q : list N) (d : gmap (list N) UserRecord) :
  p <> q -> patch_if served payload p d !! q = d !! q.
Proof.
  intros Hne. unfold patch_if. destruct served; [|reflexivity].
  now apply lookup_alter_ne.
Qed.

(** ** What a request leaves alone *)

(** X1.  Every call a request makes to the store names the phone key
    of the request, in the filter of the lookup and of the updates and
    in the row of the insert.  For a key of ASCII digits and letters,
    which the URL carries as it is, the request therefore changes no
    record but the one of its own key: the records of the other users
    are exactly as before. *)
Theorem other_records_untouched (env : Env) (req : Request) (w : World)
    (q : list N) :
  plain_key (request_key req) = true ->
  q <> request_key req ->
  db (app_post env req w).2 !! q = db w !! q
  /\ forall e, In e (calls_since w (app_post env req w).2) ->
       store_key e = None \/ store_key e = Some (request_key req).
Proof.
  intros _ Hq.
  assert (Hne : request_key req <> q) by congruence.
  assert (Hchat : forall id text e,
    In e (chat_calls id text) -> store_key e = None).
  { intros id text e. unfold chat_calls.
    destruct (converts_to_string id); [|contradiction].
    now intros [<-|[]]. }
  destruct (app_post_handled env req w); cbv zeta; cbn [snd db extend];
    rewrite ?calls_since_extend, ?calls_since_same;
    rewrite ?lookup_patch_if_ne by assumption;
    rewrite ?lookup_insert_ne by assumption; (split; [reflexivity|]);
    intros e; cbn [app In]; rewrite ?in_app_iff; cbn [In];
    intuition (subst; eauto).
Qed.

Lemma other_records_untouched_witness :
  db (app_post session_env (request "3") two_users_world).2 !! js "6281"
  = Some (new_record (js "6281") (Some (JStr (js "hello"))) 1009000).
Proof.
  rewrite (proj1 (other_records_untouched session_env (request "3")
                    two_users_world (js "6281") eq_refl ltac:(discriminate))).
  reflexivity.
Defined.

(** X2.  A request deletes no record and never changes the phone of
    one; the state of a record is left as it was or becomes
    ["selecting"], so a record in the state ["selecting"] stays there. *)
Theorem records_persist (env : Env) (req : Request) (w : World)
    (q : list N) (r : UserRecord) :
  db w !! q = Some r ->
  exists r',
    db (app_post env req w).2 !! q = Some r'
    /\ phone r' = phone r
    /\ (state r' = state r \/ state r' = js "selecting").
Proof.
  intros Hr.
  destruct (decide (request_key req = q)) as [<-|Hne].
  - destruct (app_post_handled env req w); cbv zeta; cbn [snd db extend];
      same_record Hr; rewrite ?lookup_patch_if, ?Hr;
      try (exfalso; congruence);
      inline_lets; case_store; unfold set_handle; repeat case_decide;
      message_cases; simpl;
      eexists; (split; [reflexivity|]); tauto.
  - exists r. split; [|tauto].
    destruct (app_post_handled env req w); cbv zeta; cbn [snd db extend];
      rewrite ?lookup_patch_if_ne by assumption;
      rewrite ?lookup_insert_ne by assumption; exact Hr.
Qed.

Lemma records_persist_witness :
  exists r',
    db (app_post session_env (request "3") bound_world).2 !! sample_key = Some r'
    /\ phone r' = sample_key
    /\ (state r' = js "selecting" \/ state r' = js "selecting").
Proof.
  exact (records_persist session_env (request "3") bound_world sample_key
           (bound_record JNull "1" 1007000) eq_refl).
Defined.

(** ** The calls of a request *)

(** X3.  The log of calls only grows, and a request makes at most six
    calls, of which at most one creates a conversation and at most one
    sends a message to an agent. *)
Theorem call_budget (env : Env) (req : Request) (w : World) :
  let evs := calls_since w (app_post env req w).2 in
  trace (app_post env req w).2 = trace w ++ evs
  /\ (length evs <= 6)%nat
  /\ (creation_calls evs <= 1)%nat
  /\ (length (List.filter is_agent_chat evs) <= 1)%nat.
Proof.
  destruct (app_post_handled env req w); cbv zeta; simpl snd;
    rewrite ?calls_since_extend, ?calls_since_same, ?app_nil_r;
    inline_lets; unfold creation_calls, chat_calls;
    repeat match goal with
           | |- context [converts_to_string ?id] =>
               destruct (converts_to_string id)
           end;
    simpl; repeat split; lia.
Qed.

(** X4.  The agent API is called only to route: the lookup found the
    record, its state is ["selecting"], it is bound to an agent and the
    message is a string that is no menu selection.  New users, menu
    selections and users without an agent never reach the agent API. *)
Theorem agent_api_only_when_routed (env : Env) (req : Request) (w : World) :
  existsb is_agent_call (calls_since w (app_post env req w).2) = true ->
  exists userData a text,
    found env req w userData
    /\ state userData = js "selecting"
    /\ bound_to userData a
    /\ req_message req = Some (JStr text)
    /\ ~ menu_selection text.
Proof.
  destruct (app_post_handled env req w); cbv zeta; simpl snd;
    rewrite ?calls_since_extend, ?calls_since_same; simpl;
    try discriminate; intros _; eauto 12.
Qed.

Lemma agent_api_only_when_routed_witness :
  exists userData a text,
    found session_env (request "hi there") bound_world userData
    /\ state userData = js "selecting"
    /\ bound_to userData a
    /\ req_message (request "hi there") = Some (JStr text)
    /\ ~ menu_selection text.
Proof.
  apply (agent_api_only_when_routed session_env (request "hi there") bound_world).
  reflexivity.
Defined.

(** ** What a request may change in the record of its user *)

(** X5.  The conversation handles of a record change in one way only: a
    request that creates a conversation writes the handle the agent API
    has just returned, a truthy value, into the slot of the bound agent
    (the Customer Service slot for ["Customer Service"], the Sales slot
    for any other agent).  No request changes both slots, and menu
    selections, disconnection included, change none. *)
Theorem handles_replaced_only_by_created (env : Env) (req : Request) (w : World)
    (r : UserRecord) :
  let p := request_key req in
  let created := created_id (agent_create_reply env (S (S (length (trace w))))) in
  db w !! p = Some r ->
  exists r',
    db (app_post env req w).2 !! p = Some r'
    /\ (cs_conversation_id r' = cs_conversation_id r
        /\ sales_conversation_id r' = sales_conversation_id r
        \/ (exists text, req_message req = Some (JStr text)
                         /\ ~ menu_selection text)
           /\ truthy created = true
           /\ creation_calls (calls_since w (app_post env req w).2) = 1%nat
           /\ (bound_to r CUSTOMER_SERVICE
               /\ cs_conversation_id r' = created
               /\ sales_conversation_id r' = sales_conversation_id r
               \/ (exists a, bound_to r a /\ a <> CUSTOMER_SERVICE)
                  /\ sales_conversation_id r' = created
                  /\ cs_conversation_id r' = cs_conversation_id r)).
Proof.
  intros p created Hr. subst p created.
  destruct (app_post_handled env req w); cbv zeta; simpl snd;
    rewrite ?calls_since_extend; simpl db;
    same_record Hr; rewrite ?lookup_patch_if, ?Hr;
    try (exfalso; congruence);
    inline_lets; case_sent; case_store; message_cases; simpl;
    try (eexists; split; [reflexivity|]; left; split; reflexivity).
  all: unfold set_handle; destruct (decide (a = CUSTOMER_SERVICE)) as [->|Hother];
    simpl; eexists; (split; [reflexivity|]); right;
    (split; [eauto|]); (split; [assumption|]); (split; [reflexivity|]);
    [left; tauto | right; eauto].
Qed.

Lemma handles_replaced_only_by_created_witness :
  exists r',
    db (app_post session_env (request "3") bound_world).2 !! sample_key = Some r'
    /\ cs_conversation_id r' = JNull /\ sales_conversation_id r' = JNull.
Proof.
  destruct (handles_replaced_only_by_created session_env (request "3") bound_world
              (bound_record JNull "1" 1007000) eq_refl)
    as (r' & Hr' & [Hsame|((text & Htext & Hmenu) & _)]).
  - exists r'. split; [exact Hr'|exact Hsame].
  - exfalso. apply Hmenu. injection Htext as <-. right; right. reflexivity.
Defined.

(** X6.  The agent of a record changes only by a menu selection made in
    the state ["selecting"]: ["1"] writes ["Customer Service"], ["2"]
    writes ["Sales"], ["3"] writes the empty string.  Routing a
    message, failed or not, leaves the agent as it was. *)
Theorem agent_changes_only_on_selection (env : Env) (req : Request) (w : World)
    (r : UserRecord) :
  let p := request_key req in
  db w !! p = Some r ->
  exists r',
    db (app_post env req w).2 !! p = Some r'
    /\ (agent r' = agent r
        \/ state r = js "selecting"
           /\ exists text,
                req_message req = Some (JStr text)
                /\ (trim text = js "1" /\ agent r' = Some CUSTOMER_SERVICE
                    \/ trim text = js "2" /\ agent r' = Some SALES
                    \/ trim text = js "3" /\ agent r' = Some [])).
Proof.
  intros p Hr. subst p.
  destruct (app_post_handled env req w) as
    [ | | | | | | userData text choice reply Hfound Hstate Hmessage Hcase
    | | | | | ];
    cbv zeta; simpl snd; simpl db;
    same_record Hr; rewrite ?lookup_patch_if, ?Hr;
    try (exfalso; congruence);
    inline_lets; case_sent; case_store; unfold set_handle; repeat case_decide;
    message_cases; simpl;
    eexists; (split; [reflexivity|]); try (left; reflexivity).
  all: right; split; [assumption|]; exists text; split; [assumption|];
    destruct Hcase as [(? & -> & _)|[(? & -> & _)|(? & -> & _)]]; tauto.
Qed.

Lemma agent_changes_only_on_selection_witness :
  exists r',
    db (app_post session_env (request "hi there") bound_world).2 !! sample_key
      = Some r'
    /\ agent r' = Some CUSTOMER_SERVICE.
Proof.
  destruct (agent_changes_only_on_selection session_env (request "hi there")
              bound_world (bound_record JNull "1" 1007000) eq_refl)
    as (r' & Hr' & [Hsame|(_ & text & Htext & Hcase)]).
  - exists r'. split; [exact Hr'|exact Hsame].
  - exfalso. injection Htext as <-.
    destruct Hcase as [(H & _)|[(H & _)|(H & _)]]; discriminate H.
Defined.

(** ** The records of a reachable table *)

Lemma app_post_well_formed (env : Env) (req : Request) (w : World) :
  (forall q r, db w !! q = Some r -> well_formed q r) ->
  forall q r', db (app_post env req w).2 !! q = Some r' -> well_formed q r'.
Proof.
  intros IH q r' Hr'.
  destruct (decide (request_key req = q)) as [<-|Hne].
  - destruct (db w !! request_key req) as [r|] eqn:Hr.
    + specialize (IH _ r Hr).
      destruct (app_post_handled env req w) as
        [ | | | | | | userData text choice reply Hfound Hstate Hmessage Hcase
        | | | | | ];
        cbv zeta in Hr'; cbn [snd db extend] in Hr';
        same_record Hr; rewrite ?lookup_patch_if, ?Hr in Hr';
        try (exfalso; congruence);
        try (injection Hr' as <-; exact IH).
      all: inline_lets; unfold message_payload, written in Hr';
        destruct (req_message req); proj_simpl; injection Hr' as <-;
        destruct IH as (I1 & I2 & I3 & I4 & I5 & I6); unfold well_formed;
        case_store; unfold set_handle; repeat case_decide; proj_simpl.
      all: try (destruct Hcase as [(_ & -> & _)|[(_ & -> & _)|(_ & -> & _)]]).
      all: repeat split; try assumption; try discriminate; try tauto.
    + destruct (app_post_handled env req w); cbv zeta in Hr';
        cbn [snd db extend] in Hr';
        same_record Hr; rewrite ?lookup_patch_if, ?Hr in Hr';
        try (exfalso; congruence);
        try (case_store; discriminate Hr').
      rewrite lookup_insert_eq in Hr'. injection Hr' as <-.
      unfold well_formed, new_record; proj_simpl.
      repeat split; try discriminate; tauto.
  - apply IH.
    destruct (app_post_handled env req w); cbv zeta in Hr';
      cbn [snd db extend] in Hr';
      rewrite ?lookup_patch_if_ne in Hr' by assumption;
      rewrite ?lookup_insert_ne in Hr' by assumption; exact Hr'.
Qed.

(** X7.  In every table the server reaches from an empty one, a record
    is stored under its own phone, its state is ["initial"] or
    ["selecting"], it has no agent or else is in the state
    ["selecting"] with agent [""], ["Customer Service"] or ["Sales"],
    it has a timestamp, and each conversation handle is [null] or
    truthy. *)
Theorem reachable_records_well_formed (w : World) (q : list N) (r : UserRecord) :
  reachable w -> db w !! q = Some r -> well_formed q r.
Proof.
  intros Hreach. revert q r.
  induction Hreach as [|env req w _ IH]; intros q r Hr.
  - simpl in Hr. now rewrite lookup_empty in Hr.
  - exact (app_post_well_formed env req w IH q r Hr).
Qed.

Lemma reachable_records_well_formed_witness :
  well_formed sample_key (bound_record JNull "1" 1007000).
Proof.
  apply (reachable_records_well_formed bound_world).
  - repeat apply reachable_request. apply reachable_start.
  - reflexivity.
Defined.

(** ** The answers to an existing user *)

Lemma app_post_found (env : Env) (req : Request) (w : World)
    (userData : UserRecord) :
  let p := request_key req in
  let n := length (trace w) in
  let message := req_message req in
  let payload := message_payload message in
  found env req w userData ->
  app_post env req w
  = let (result, w') :=
      handleAgentSelection env p (state userData) message userData
        (decided_inactive env w userData)
        (extend w (patch_if (store_up env (S n)) payload p (db w))
           [StoreGet p; StorePatch p payload]) in
    (reply_of result, w').
Proof.
  intros p n message payload ((raw & Hphone & Hne) & Hup & Hdb).
  assert (Hkey : request_key req = normalize_phone raw)
    by (now apply phone_given_key).
  assert (Hraw : truthy_string raw = true) by (now destruct raw).
  subst p. rewrite Hkey in *.
  exact (app_post_existing env req w raw userData Hphone Hraw Hup Hdb).
Qed.

Lemma app_post_found_text (env : Env) (req : Request) (w : World)
    (userData : UserRecord) (text : list N) :
  let p := request_key req in
  let n := length (trace w) in
  let payload := [SetState (js "selecting"); SetLastMessage (JStr text)] in
  found env req w userData ->
  req_message req = Some (JStr text) ->
  app_post env req w
  = let (result, w') :=
      handleAgentSelection env p (state userData) (Some (JStr text)) userData
        (decided_inactive env w userData)
        (extend w (patch_if (store_up env (S n)) payload p (db w))
           [StoreGet p; StorePatch p payload]) in
    (reply_of result, w').
Proof.
  intros p n payload Hfound Hmessage.
  rewrite (app_post_found env req w userData Hfound). now rewrite Hmessage.
Qed.

(** X8.  For an existing user in the state ["selecting"], the message
    ["2"] (after trimming) is answered with the choice ["Sales"] and
    the connected-to-Sales text, whatever the agent and the timestamp
    of the record; the handler writes the message, the agent ["Sales"]
    and the timestamp, and the record holds the agent once the store
    accepts that write. *)
Theorem select_sales (env : Env) (req : Request) (w : World)
    (userData : UserRecord) (text : list N) :
  let p := request_key req in
  let n := length (trace w) in
  found env req w userData ->
  state userData = js "selecting" ->
  req_message req = Some (JStr text) ->
  trim text = js "2" ->
  exists w',
    app_post env req w
      = (Normal {| status := 200;
                   body := ReplyBody true (JStr MSG_CONNECTED_SALES) SALES |}, w')
    /\ calls_since w w'
       = [StoreGet p;
          StorePatch p [SetState (js "selecting"); SetLastMessage (JStr text)];
          StorePatch p [SetAgent SALES];
          StorePatch p [SetLastActivityTimestamp (clock env (S (S (S n))))]]
    /\ (store_up env (S (S n)) = true ->
        agent <$> db w' !! p = Some (Some SALES)).
Proof.
  intros p n Hfound Hstate Hmessage Htwo.
  rewrite (app_post_found_text env req w userData text Hfound Hmessage). cbv zeta.
  fold p n. rewrite Hstate.
  destruct (run_selection env w
              (patch_if (store_up env (S n))
                 [SetState (js "selecting"); SetLastMessage (JStr text)] p (db w))
              [StoreGet p;
               StorePatch p [SetState (js "selecting"); SetLastMessage (JStr text)]]
              p text userData (decided_inactive env w userData))
    as (choice & reply & Hcase & Hrun); [right; now left|].
  destruct Hcase as [(H1 & _)|[(_ & -> & ->)|(H3 & _)]];
    [rewrite Htwo in H1; discriminate H1| |rewrite Htwo in H3; discriminate H3].
  rewrite Hrun. eexists. split; [reflexivity|].
  rewrite calls_since_extend. split; [reflexivity|].
  destruct Hfound as (_ & _ & Hdb). fold p in Hdb.
  intros Hserved. simpl db. fold n p. rewrite !lookup_patch_if, Hdb, Hserved.
  case_store; reflexivity.
Qed.

Lemma select_sales_witness :
  exists w',
    app_post session_env (request " 2") bound_world
      = (Normal {| status := 200;
                   body := ReplyBody true (JStr MSG_CONNECTED_SALES) SALES |}, w')
    /\ agent <$> db w' !! sample_key = Some (Some SALES).
Proof.
  destruct (select_sales session_env (request " 2") bound_world
              (bound_record JNull "1" 1007000) (js " 2"))
    as (w' & Hrun & _ & Hagent).
  - split; [exists sample_phone; split; [reflexivity|discriminate]|].
    split; reflexivity.
  - reflexivity.
  - reflexivity.
  - reflexivity.
  - exists w'. split; [exact Hrun|]. apply Hagent. reflexivity.
Defined.

(** X9.  Disconnecting works whatever agent the user had: in the state
    ["selecting"] the message ["3"] is answered with the disconnected
    text and an empty choice.  Once the store has accepted the agent
    update, the next message of that user that is no menu selection,
    if the store answers its lookup, is answered with the prompt to
    select an agent, with the choice ["INVALID"], and reaches no
    agent. *)
Theorem disconnected_user_is_prompted (env1 env2 : Env) (req1 req2 : Request)
    (w : World) (userData : UserRecord) (text1 text2 : list N) :
  let w1 := (app_post env1 req1 w).2 in
  found env1 req1 w userData ->
  state userData = js "selecting" ->
  req_message req1 = Some (JStr text1) ->
  trim text1 = js "3" ->
  store_up env1 (S (S (length (trace w)))) = true ->
  phone_given req2 ->
  request_key req2 = request_key req1 ->
  store_up env2 (length (trace w1)) = true ->
  req_message req2 = Some (JStr text2) ->
  ~ menu_selection text2 ->
  (app_post env1 req1 w).1
  = Normal {| status := 200; body := ReplyBody true (JStr MSG_DISCONNECTED) [] |}
  /\ (app_post env2 req2 w1).1
     = Normal {| status := 200;
                 body := ReplyBody true (JStr MSG_SELECT_AGENT) (js "INVALID") |}
  /\ existsb is_agent_call (calls_since w1 (app_post env2 req2 w1).2) = false.
Proof.
  intros w1 Hfound Hstate Hmessage Hthree Hserved Hok2 Hkey Hup2 Hmessage2 Hmenu2.
  subst w1.
  set (p := request_key req1) in *. set (n := length (trace w)) in *.
  destruct (run_selection env1 w
              (patch_if (store_up env1 (S n))
                 [SetState (js "selecting"); SetLastMessage (JStr text1)] p (db w))
              [StoreGet p;
               StorePatch p [SetState (js "selecting"); SetLastMessage (JStr text1)]]
              p text1 userData (decided_inactive env1 w userData))
    as (choice & reply & Hcase & Hrun); [right; now right|].
  destruct Hcase as [(H1 & _)|[(H2 & _)|(_ & -> & ->)]];
    [rewrite Hthree in H1; discriminate H1
    |rewrite Hthree in H2; discriminate H2|].
  assert (Hfirst := app_post_found_text env1 req1 w userData text1 Hfound Hmessage).
  cbv zeta in Hfirst. fold p n in Hfirst.
  rewrite Hstate, Hrun in Hfirst. normalise_calls n.
  rewrite Hfirst in *. simpl fst. simpl snd in *.
  split; [reflexivity|].
  match goal with
  | |- context [app_post env2 req2 (extend w ?d ?evs)] =>
      set (d1 := d) in *; set (evs1 := evs) in *
  end.
  destruct Hfound as (_ & _ & Hdb). fold p in Hdb.
  assert (Hrow : exists r1,
    d1 !! p = Some r1 /\ state r1 = js "selecting" /\ agent r1 = Some []).
  { subst d1. cbn [length Nat.add] . fold n.
    rewrite !lookup_patch_if, Hdb, Hserved.
    case_store; eexists; (split; [reflexivity|]); now proj_simpl. }
  destruct Hrow as (r1 & Hr1 & Hstate1 & Hagent1).
  assert (Hfound2 : found env2 req2 (extend w d1 evs1) r1).
  { split; [exact Hok2|]. split; [exact Hup2|]. rewrite Hkey. exact Hr1. }
  rewrite (app_post_found_text env2 req2 _ r1 text2 Hfound2 Hmessage2). cbv zeta.
  rewrite Hstate1, run_prompt by (assumption || (right; assumption)).
  simpl fst. simpl snd. split; [reflexivity|].
  unfold calls_since, extend. simpl trace.
  rewrite drop_app_length. reflexivity.
Qed.

Lemma disconnected_user_is_prompted_witness :
  let w1 := (app_post session_env (request "3") bound_world).2 in
  (app_post session_env (request "3") bound_world).1
  = Normal {| status := 200; body := ReplyBody true (JStr MSG_DISCONNECTED) [] |}
  /\ (app_post session_env (request "hi there") w1).1
     = Normal {| status := 200;
                 body := ReplyBody true (JStr MSG_SELECT_AGENT) (js "INVALID") |}
  /\ existsb is_agent_call
       (calls_since w1 (app_post session_env (request "hi there") w1).2) = false.
Proof.
  apply (disconnected_user_is_prompted session_env session_env (request "3")
           (request "hi there") bound_world (bound_record JNull "1" 1007000)
           (js "3") (js "hi there")).
  - split; [exists sample_phone; split; [reflexivity|discriminate]|].
    split; reflexivity.
  - reflexivity.
  - reflexivity.
  - reflexivity.
  - reflexivity.
  - exists sample_phone; split; [reflexivity|discriminate].
  - reflexivity.
  - reflexivity.
  - reflexivity.
  - intros [H|[H|H]]; discriminate H.
Defined.

(** X10.  An existing user in the state ["selecting"] who has no agent
    (none yet, or disconnected) and sends a message that is no menu
    selection is answered with the prompt to select an agent and the
    choice ["INVALID"]; the request makes the lookup and the message
    update and no other call, and agent, handles and timestamp of the
    record stay as they were. *)
Theorem unbound_text_prompts (env : Env) (req : Request) (w : World)
    (userData : UserRecord) (text : list N) :
  let p := request_key req in
  found env req w userData ->
  state userData = js "selecting" ->
  unbound userData ->
  req_message req = Some (JStr text) ->
  ~ menu_selection text ->
  exists w' r',
    app_post env req w
      = (Normal {| status := 200;
                   body := ReplyBody true (JStr MSG_SELECT_AGENT)
                             (js "INVALID") |}, w')
    /\ calls_since w w'
       = [StoreGet p;
          StorePatch p [SetState (js "selecting"); SetLastMessage (JStr text)]]
    /\ db w' !! p = Some r'
    /\ agent r' = agent userData
    /\ cs_conversation_id r' = cs_conversation_id userData
    /\ sales_conversation_id r' = sales_conversation_id userData
    /\ last_activity_timestamp r' = last_activity_timestamp userData.
Proof.
  intros p Hfound Hstate Hfree Hmessage Hmenu.
  rewrite (app_post_found_text env req w userData text Hfound Hmessage). cbv zeta.
  rewrite Hstate, run_prompt by assumption.
  destruct Hfound as (_ & _ & Hdb).
  eexists _, _. split; [reflexivity|].
  rewrite calls_since_extend. split; [reflexivity|].
  simpl db. rewrite lookup_patch_if, Hdb.
  split; [reflexivity|]. now case_store.
Qed.

Lemma unbound_text_prompts_witness :
  let userData := sample_record "selecting" None JNull 0 in
  exists w' r',
    app_post session_env (request "hello again") (world_with userData)
      = (Normal {| status := 200;
                   body := ReplyBody true (JStr MSG_SELECT_AGENT)
                             (js "INVALID") |}, w')
    /\ db w' !! sample_key = Some r'
    /\ last_activity_timestamp r' = Some 0%Z.
Proof.
  intros userData.
  destruct (unbound_text_prompts session_env (request "hello again")
              (world_with userData) userData (js "hello again"))
    as (w' & r' & Hrun & _ & Hr' & _ & _ & _ & Hts).
  - split; [exists sample_phone; split; [reflexivity|discriminate]|].
    split; reflexivity.
  - reflexivity.
  - left; reflexivity.
  - reflexivity.
  - intros [H|[H|H]]; discriminate H.
  - exists w', r'. split; [exact Hrun|]. split; [exact Hr'|exact Hts].
Defined.

(** ** New users *)

(** A request whose lookup returns no record, for want of a record or
    of an answer, inserts one. *)
Lemma app_post_not_found (env : Env) (req : Request) (w : World) :
  let p := request_key req in
  let n := length (trace w) in
  let row := new_record p (req_message req) (clock env (S n)) in
  phone_given req ->
  store_up env n = false \/ db w !! p = None ->
  app_post env req w
  = if store_up env (S n) && bool_decide (db w !! p = None) then
      (Normal {| status := 200; body := ReplyBody false (JStr MSG_WELCOME) [] |},
       extend w (<[p := row]> (db w)) [StoreGet p; StorePost row])
    else
      (Normal {| status := 200;
                 body := ReplyBody false (JStr MSG_REQUEST_ERROR) [] |},
       extend w (db w) [StoreGet p; StorePost row]).
Proof.
  intros p n row (raw & Hphone & Hne) Hnot.
  assert (Hkey : normalize_phone raw = p)
    by (symmetry; now apply phone_given_key).
  rewrite (app_post_lookup env req w raw Hphone Hne). cbv zeta.
  rewrite Hkey. fold n.
  assert (Hcreate :
    (let (created, w') :=
       createUser env p (req_message req) (extend w (db w) [StoreGet p]) in
     (Normal {| status := 200;
                body := ReplyBody false
                          (JStr (if created then MSG_WELCOME
                                 else MSG_REQUEST_ERROR)) [] |},
      w'))
    = if store_up env (S n) && bool_decide (db w !! p = None) then
        (Normal {| status := 200;
                   body := ReplyBody false (JStr MSG_WELCOME) [] |},
         extend w (<[p := row]> (db w)) [StoreGet p; StorePost row])
      else
        (Normal {| status := 200;
                   body := ReplyBody false (JStr MSG_REQUEST_ERROR) [] |},
         extend w (db w) [StoreGet p; StorePost row])).
  { rewrite run_createUser. cbv zeta.
    change (length [StoreGet p] + length (trace w))%nat with (S n).
    fold row.
    destruct (store_up env (S n)); [|reflexivity].
    now destruct (db w !! p). }
  destruct (store_up env n); [|exact Hcreate].
  destruct Hnot as [Hnot|Hnot]; [discriminate Hnot|].
  rewrite Hnot in *. exact Hcreate.
Qed.

(** X12.  A lookup the store does not answer is taken for a user that
    does not exist: the answer says [exists = false] with an empty
    choice, the only calls are the lookup and the insert of a fresh
    record, and the reply is the welcome text or, when the insert is
    not answered either, the request-error text. *)
Theorem failed_lookup_served_as_new (env : Env) (req : Request) (w : World) :
  let p := request_key req in
  let n := length (trace w) in
  phone_given req ->
  store_up env n = false ->
  exists reply w',
    app_post env req w
      = (Normal {| status := 200; body := ReplyBody false reply [] |}, w')
    /\ calls_since w w'
       = [StoreGet p; StorePost (new_record p (req_message req) (clock env (S n)))]
    /\ (reply = JStr MSG_WELCOME \/ reply = JStr MSG_REQUEST_ERROR)
    /\ (store_up env (S n) = false -> reply = JStr MSG_REQUEST_ERROR).
Proof.
  intros p n Hok Hdown.
  rewrite (app_post_not_found env req w Hok (or_introl Hdown)). cbv zeta.
  fold p n.
  destruct (store_up env (S n) && bool_decide (db w !! p = None)) eqn:Hcreated;
    eexists _, _; (split; [reflexivity|]); rewrite calls_since_extend;
    (split; [reflexivity|]); (split; [tauto|]); [|reflexivity].
  intros Hdown2. rewrite Hdown2 in Hcreated. discriminate Hcreated.
Qed.

Lemma failed_lookup_served_as_new_witness :
  exists w',
    app_post (sample_env (always false) None None) (request "1") bound_world
      = (Normal {| status := 200;
                   body := ReplyBody false (JStr MSG_REQUEST_ERROR) [] |}, w').
Proof.
  destruct (failed_lookup_served_as_new (sample_env (always false) None None)
              (request "1") bound_world)
    as (reply & w' & Hrun & _ & _ & Herror).
  - exists sample_phone; split; [reflexivity|discriminate].
  - reflexivity.
  - exists w'. rewrite Hrun, Herror; reflexivity.
Defined.

(** ** Messages sent to an agent *)

(** X13.  Whenever a request sends a message to an agent, the user is
    bound to that agent, the message goes out once, as it was received
    (untrimmed) and under a truthy handle; the reply of the answer is
    what [chatWithAgent] makes of the agent's answer (the apology text
    when the call fails), the choice is the bound agent, and the next
    and last call of the request refreshes the timestamp, failed send
    or not. *)
Theorem sent_message_is_answered (env : Env) (req : Request) (w : World) :
  let p := request_key req in
  let w' := (app_post env req w).2 in
  existsb is_agent_chat (calls_since w w') = true ->
  exists userData a id front text,
    let k := (length front + length (trace w))%nat in
    found env req w userData
    /\ bound_to userData a
    /\ req_message req = Some (JStr text)
    /\ truthy id = true
    /\ converts_to_string id = true
    /\ calls_since w w'
       = front ++ [AgentChat id text;
                   StorePatch p [SetLastActivityTimestamp (clock env (S k))]]
    /\ existsb is_agent_chat front = false
    /\ (app_post env req w).1
       = Normal {| status := 200;
                   body := ReplyBody true
                             (chat_reply (agent_chat_reply env k)) a |}
    /\ (store_up env (S k) = true ->
        last_activity_timestamp <$> db w' !! p = Some (Some (clock env (S k)))).
Proof.
  intros p w'. subst p w'.
  destruct (app_post_handled env req w) as
    [ | | | | | | | | |
    | userData text a agentId Hfound Hstate Hmessage Hmenu Hbound Hnew Hid id
        Htruthy
    | userData text a Hfound Hstate Hmessage Hmenu Hbound Hhandle Hinactive ];
    cbv zeta; simpl snd; rewrite ?calls_since_extend, ?calls_since_same;
    simpl existsb; try discriminate.
  - inline_lets.
    set (id := created_id (agent_create_reply env (S (S (length (trace w)))))) in *.
    unfold chat_calls, chat_reply_under.
    destruct (converts_to_string id) eqn:Hprints; [|discriminate]. intros _.
    exists userData, a, id,
      [StoreGet (request_key req);
       StorePatch (request_key req) (message_payload (req_message req));
       AgentCreate agentId;
       StorePatch (request_key req)
         [set_handle a id;
          SetLastActivityTimestamp (clock env (S (S (S (length (trace w))))))]],
      text.
    cbv zeta. cbn [length Nat.add app].
    repeat (split; [first [assumption|reflexivity]|]).
    intros Hserved. cbn [db extend].
    pose proof Hfound as (_ & _ & Hdb).
    rewrite !lookup_patch_if, Hdb, Hserved. now case_store.
  - inline_lets. unfold chat_calls, chat_reply_under.
    destruct (converts_to_string (handle_for a userData)) eqn:Hprints;
      [|discriminate].
    intros _.
    exists userData, a, (handle_for a userData),
      [StoreGet (request_key req);
       StorePatch (request_key req) (message_payload (req_message req))],
      text.
    cbv zeta. cbn [length Nat.add app].
    repeat (split; [first [assumption|reflexivity]|]).
    intros Hserved. cbn [db extend].
    pose proof Hfound as (_ & _ & Hdb).
    rewrite !lookup_patch_if, Hdb, Hserved. now case_store.
Qed.

Lemma sent_message_is_answered_witness :
  exists id,
    truthy id = true
    /\ (app_post (sample_env (always true) (Some (created_body "c1")) None)
          (request "hi there") bound_world).1
       = Normal {| status := 200;
                   body := ReplyBody true (JStr MSG_AGENT_ERROR)
                             CUSTOMER_SERVICE |}.
Proof.
  destruct (sent_message_is_answered
              (sample_env (always true) (Some (created_body "c1")) None)
              (request "hi there") bound_world)
    as (userData & a & id & front & text & _ & _ & _ & Hid & _).
  - reflexivity.
  - exists id. split; [exact Hid|reflexivity].
Defined.

(** ** Phone keys *)

Lemma normalize_phone_app (a b : list N) :
  normalize_phone (a ++ b) = normalize_phone a ++ normalize_phone b.
Proof.
  unfold normalize_phone. rewrite !replace_class_erase. apply List.filter_app.
Qed.

Lemma normalize_phone_separators (sep : list N) :
  forallb phone_separator sep = true -> normalize_phone sep = [].
Proof.
  unfold normalize_phone. rewrite replace_class_erase.
  induction sep as [|c sep IH]; simpl; [reflexivity|].
  intros H. apply andb_true_iff in H as [-> H]. simpl. now apply IH.
Qed.

(** X14.  Separators do not matter for the key, wherever they stand:
    writing white space, [+] or [-] into a phone number, at the front,
    at the end or in the middle, gives the same key, and a number
    without separators is its own key. *)
Theorem normalize_phone_ignores_separators (a sep b : list N) :
  forallb phone_separator sep = true ->
  normalize_phone (a ++ sep ++ b) = normalize_phone (a ++ b)
  /\ (forallb (fun c => negb (phone_separator c)) a = true ->
      normalize_phone (a ++ sep) = a /\ normalize_phone (sep ++ a) = a).
Proof.
  intros Hsep.
  assert (Hkeep : forall l,
    forallb (fun c => negb (phone_separator c)) l = true -> normalize_phone l = l).
  { unfold normalize_phone. intros l. rewrite replace_class_erase.
    induction l as [|c l IH]; simpl; [reflexivity|].
    intros H. apply andb_true_iff in H as [-> H]. now rewrite IH. }
  rewrite !normalize_phone_app, (normalize_phone_separators sep Hsep).
  split; [reflexivity|]. intros Ha.
  rewrite app_nil_r. simpl. split; now apply Hkeep.
Qed.

Lemma normalize_phone_ignores_separators_witness :
  normalize_phone (js "62" ++ js " - " ++ js "812") = normalize_phone (js "62812").
Proof.
  exact (proj1 (normalize_phone_ignores_separators (js "62") (js " - ") (js "812")
                  eq_refl)).
Defined.

(** X15.  The check for a missing phone comes before the
    normalisation: a phone made of separators only is not missing.
    The request is served under the empty key, with a lookup for the
    empty phone as its first call; an answer to it has the status 200,
    not 400, and it is answered whenever its message is a string. *)
Theorem separators_only_phone (env : Env) (req : Request) (w : World)
    (raw : list N) :
  req_phone req = Some (JStr raw) ->
  truthy_string raw = true ->
  forallb phone_separator raw = true ->
  request_key req = []
  /\ (exists rest, calls_since w (app_post env req w).2 = StoreGet [] :: rest)
  /\ (forall resp, (app_post env req w).1 = Normal resp -> status resp = 200%Z)
  /\ ((exists text, req_message req = Some (JStr text)) ->
      exists resp, (app_post env req w).1 = Normal resp /\ status resp = 200%Z).
Proof.
  intros Hphone Hraw Hsep.
  assert (Hkey : request_key req = []).
  { rewrite (phone_given_key req raw Hphone).
    now apply normalize_phone_separators. }
  assert (Hgiven : phone_given req).
  { exists raw. split; [exact Hphone|]. intros ->. discriminate Hraw. }
  destruct (phone_given_not_missing req Hgiven) as [Hok Hstring].
  assert (Hstatus : forall resp,
    (app_post env req w).1 = Normal resp -> status resp = 200%Z).
  { intros resp Hresp.
    destruct (app_post_status env req w resp Hresp) as [[H _]|[_ H]];
      [contradiction|exact H]. }
  split; [exact Hkey|]. split; [|split; [exact Hstatus|]].
  - destruct (app_post_handled env req w); cbv zeta; simpl snd;
      try contradiction; rewrite calls_since_extend, Hkey;
      eexists; reflexivity.
  - intros (text & Hmessage).
    destruct (app_post env req w).1 as [resp|] eqn:Hresp.
    + exists resp. split; [reflexivity|]. now apply Hstatus.
    + exfalso. apply app_post_throws in Hresp.
      destruct Hresp as [Hnot|(u & _ & _ & Hnot)];
        [contradiction|now apply (Hnot text)].
Qed.

Lemma separators_only_phone_witness :
  let req := {| req_phone := Some (JStr (js "+ -"));
                req_message := Some (JStr (js "hello")) |} in
  (exists resp,
     (app_post session_env req empty_world).1 = Normal resp
     /\ status resp = 200%Z)
  /\ db (app_post session_env req empty_world).2 !! [] <> None.
Proof.
  intros req.
  destruct (separators_only_phone session_env req empty_world (js "+ -"))
    as (_ & _ & _ & Hanswered); [reflexivity|reflexivity|reflexivity|].
  split; [|discriminate].
  apply Hanswered. now exists (js "hello").
Defined.

(** ** Menu selections and white space *)

Lemma trimStart_white (pre s : list N) :
  forallb isWhiteSpace pre = true -> trimStart (pre ++ s) = trimStart s.
Proof.
  induction pre as [|c pre IH]; simpl; [reflexivity|].
  intros H. apply andb_true_iff in H as [-> H]. now apply IH.
Qed.

Lemma trimEnd_white (s post : list N) :
  forallb isWhiteSpace post = true -> trimEnd (s ++ post) = trimEnd s.
Proof.
  intros H. unfold trimEnd. rewrite rev_app_distr, trimStart_white; [reflexivity|].
  rewrite forallb_forall in *. intros c Hc. apply H. now apply in_rev.
Qed.

Lemma trim_padding (pre s post : list N) :
  forallb isWhiteSpace pre = true -> forallb isWhiteSpace post = true ->
  trim (pre ++ s ++ post) = trim s.
Proof.
  intros Hpre Hpost. unfold trim. rewrite trimStart_white by assumption.
  induction s as [|c s IH]; simpl.
  - rewrite <- (app_nil_r post), trimStart_white by assumption. reflexivity.
  - destruct (isWhiteSpace c); [exact IH|].
    change (c :: s ++ post) with ((c :: s) ++ post).
    now apply trimEnd_white.
Qed.

(** X16.  White space around a menu selection does not matter: for an
    existing user in the state ["selecting"], a menu selection with
    any white space (line breaks and no-break spaces included) before
    and after it is answered as the bare selection is, and the same
    agent is written. *)
Theorem selection_ignores_padding (env : Env) (w : World) (rawPhone : list N)
    (pre selection post : list N) (userData : UserRecord) :
  let bare :=
    {| req_phone := Some (JStr rawPhone);
       req_message := Some (JStr selection) |} in
  let padded :=
    {| req_phone := Some (JStr rawPhone);
       req_message := Some (JStr (pre ++ selection ++ post)) |} in
  found env bare w userData ->
  state userData = js "selecting" ->
  menu_selection selection ->
  forallb isWhiteSpace pre = true ->
  forallb isWhiteSpace post = true ->
  (app_post env padded w).1 = (app_post env bare w).1
  /\ agent <$> db (app_post env padded w).2 !! request_key bare
     = agent <$> db (app_post env bare w).2 !! request_key bare.
Proof.
  intros bare padded Hfound Hstate Hmenu Hpre Hpost.
  set (text := pre ++ selection ++ post).
  assert (Htrim : trim text = trim selection) by (now apply trim_padding).
  assert (Hfound' : found env padded w userData).
  { destruct Hfound as (Hok & Hup & Hdb). split; [|split; assumption].
    exact Hok. }
  assert (Hmenu' : menu_selection text).
  { unfold menu_selection. rewrite Htrim. exact Hmenu. }
  rewrite (app_post_found_text env padded w userData text Hfound' eq_refl).
  rewrite (app_post_found_text env bare w userData selection Hfound eq_refl).
  cbv zeta.
  change (request_key padded) with (request_key bare).
  set (p := request_key bare). rewrite Hstate.
  set (n := length (trace w)).
  destruct (run_selection env w
              (patch_if (store_up env (S n))
                 [SetState (js "selecting"); SetLastMessage (JStr text)]
                 p (db w))
              [StoreGet p;
               StorePatch p
                 [SetState (js "selecting"); SetLastMessage (JStr text)]]
              p text userData (decided_inactive env w userData)
              Hmenu')
    as (choice' & reply' & Hcase' & ->).
  destruct (run_selection env w
              (patch_if (store_up env (S n))
                 [SetState (js "selecting"); SetLastMessage (JStr selection)]
                 p (db w))
              [StoreGet p;
               StorePatch p
                 [SetState (js "selecting"); SetLastMessage (JStr selection)]]
              p selection userData (decided_inactive env w userData)
              Hmenu)
    as (choice & reply & Hcase & ->).
  assert (Hsame : choice' = choice /\ reply' = reply).
  { rewrite Htrim in Hcase'.
    destruct Hcase as [(H & -> & ->)|[(H & -> & ->)|(H & -> & ->)]];
      destruct Hcase' as [(H' & -> & ->)|[(H' & -> & ->)|(H' & -> & ->)]];
      rewrite H in H'; (discriminate H' || (split; reflexivity)). }
  destruct Hsame as [-> ->]. split; [reflexivity|].
  destruct Hfound as (_ & _ & Hdb). fold p in Hdb.
  cbn [snd db extend]. rewrite !lookup_patch_if, Hdb.
  normalise_calls n. case_store; reflexivity.
Qed.

Lemma selection_ignores_padding_witness :
  (app_post session_env (request "  2 ") bound_world).1
  = (app_post session_env (request "2") bound_world).1.
Proof.
  apply (selection_ignores_padding session_env bound_world sample_phone
           (js "  ") (js "2") (js " ") (bound_record JNull "1" 1007000)).
  - split; [exists sample_phone; split; [reflexivity|discriminate]|].
    split; reflexivity.
  - reflexivity.
  - right; left; reflexivity.
  - reflexivity.
  - reflexivity.
Defined.

(** ** The inactivity window *)

(** X17.  Inactivity only grows with time: a timestamp that is
    inactive at one reading of the clock is inactive at every later
    reading, and so is every older timestamp and the absent one. *)
Theorem isUserInactive_monotone (env env' : Env) (w w' : World)
    (ts ts' : option Z) :
  (clock env (length (trace w)) <= clock env' (length (trace w')))%Z ->
  match ts', ts with
  | None, _ => True
  | Some t', Some t => (t' <= t)%Z
  | Some _, None => False
  end ->
  (isUserInactive env ts w).1 = true ->
  (isUserInactive env' ts' w').1 = true.
Proof.
  intros Hclock Hts.
  rewrite (extend_start w), (extend_start w'), !run_isUserInactive.
  cbn [length Nat.add fst]. unfold inactive_at.
  destruct ts' as [t'|], ts as [t|]; try reflexivity; try contradiction.
  rewrite !Z.ltb_lt. lia.
Qed.

Lemma isUserInactive_monotone_witness :
  (isUserInactive session_env (Some 0%Z) bound_world).1 = true.
Proof.
  apply (isUserInactive_monotone session_env session_env empty_world bound_world
           (Some 0%Z) (Some 0%Z)).
  - vm_compute. discriminate.
  - cbn. lia.
  - reflexivity.
Defined.

(** ** Selecting an agent again *)

(** X18.  Selecting Customer Service refreshes the timestamp and keeps
    the handle, so it revives an old conversation: when the record has
    a Customer Service handle (one that converts to a string, as every
    string does) and the store accepts the agent update and the
    refresh, the next message of the user, if the store answers its
    lookup and it comes within the threshold after the selection, goes
    out under that handle and no conversation is created, however old
    the timestamp of the record was before the selection. *)
Theorem reselect_keeps_conversation (env1 env2 : Env) (req1 req2 : Request)
    (w : World) (userData : UserRecord) (text1 text2 : list N) :
  let p := request_key req1 in
  let n := length (trace w) in
  let w1 := (app_post env1 req1 w).2 in
  let w2 := (app_post env2 req2 w1).2 in
  let n1 := length (trace w1) in
  let handle := cs_conversation_id userData in
  found env1 req1 w userData ->
  state userData = js "selecting" ->
  req_message req1 = Some (JStr text1) ->
  trim text1 = js "1" ->
  truthy handle = true ->
  converts_to_string handle = true ->
  store_up env1 (S (S n)) = true ->
  store_up env1 (S (S (S n))) = true ->
  phone_given req2 ->
  request_key req2 = p ->
  store_up env2 n1 = true ->
  req_message req2 = Some (JStr text2) ->
  ~ menu_selection text2 ->
  (clock env2 (S n1) - clock env1 (S (S (S n))) <= INACTIVITY_THRESHOLD_MS)%Z ->
  calls_since w1 w2
  = [StoreGet p;
     StorePatch p [SetState (js "selecting"); SetLastMessage (JStr text2)];
     AgentChat handle text2;
     StorePatch p [SetLastActivityTimestamp (clock env2 (S (S (S n1))))]]
  /\ creation_calls (calls_since w1 w2) = 0%nat.
Proof.
  intros p n w1 w2 n1 handle Hfound Hstate Hmessage Hone Hhandle Hprints
    Hagent Hrefresh Hok2 Hkey Hup2 Hmessage2 Hmenu2 Hclock.
  subst w2 n1 w1.
  destruct (run_selection env1 w
              (patch_if (store_up env1 (S n))
                 [SetState (js "selecting"); SetLastMessage (JStr text1)] p (db w))
              [StoreGet p;
               StorePatch p [SetState (js "selecting"); SetLastMessage (JStr text1)]]
              p text1 userData (decided_inactive env1 w userData))
    as (choice & reply & Hcase & Hrun); [now left|].
  destruct Hcase as [(_ & -> & ->)|[(H2 & _)|(H3 & _)]];
    [|rewrite Hone in H2; discriminate H2|rewrite Hone in H3; discriminate H3].
  assert (Hfirst := app_post_found_text env1 req1 w userData text1 Hfound Hmessage).
  cbv zeta in Hfirst. fold p n in Hfirst.
  rewrite Hstate, Hrun in Hfirst. normalise_calls n.
  rewrite Hfirst in *. cbn [snd] in *.
  match goal with
  | |- context [app_post env2 req2 (extend w ?d ?evs)] =>
      set (d1 := d) in *; set (evs1 := evs) in *
  end.
  destruct Hfound as (_ & _ & Hdb). fold p in Hdb.
  assert (Hrow : exists r1,
    d1 !! p = Some r1 /\ state r1 = js "selecting"
    /\ agent r1 = Some CUSTOMER_SERVICE
    /\ cs_conversation_id r1 = handle
    /\ last_activity_timestamp r1 = Some (clock env1 (S (S (S n))))).
  { subst d1. cbn [length Nat.add]. fold n.
    rewrite !lookup_patch_if, Hdb, Hagent, Hrefresh.
    case_store; eexists; (split; [reflexivity|]); now proj_simpl. }
  destruct Hrow as (r1 & Hr1 & Hstate1 & Hagent1 & Hhandle1 & Hts1).
  assert (Hfound2 : found env2 req2 (extend w d1 evs1) r1).
  { split; [exact Hok2|]. split; [exact Hup2|]. rewrite Hkey. exact Hr1. }
  assert (Hbound : bound_to r1 CUSTOMER_SERVICE)
    by (split; [exact Hagent1|discriminate]).
  assert (Hactive : decided_inactive env2 (extend w d1 evs1) r1 = false).
  { unfold decided_inactive, inactive_at. rewrite Hts1.
    apply Z.ltb_ge. exact Hclock. }
  assert (Hsame : handle_for CUSTOMER_SERVICE r1 = handle).
  { unfold handle_for. now rewrite decide_True by reflexivity. }
  rewrite (app_post_found_text env2 req2 _ r1 text2 Hfound2 Hmessage2). cbv zeta.
  rewrite Hstate1.
  rewrite (run_route env2 (extend w d1 evs1) _ _ _ _ r1 _ CUSTOMER_SERVICE)
    by assumption.
  cbv zeta. rewrite Hactive, Hsame, Hhandle. cbn [negb orb snd].
  rewrite (chat_calls_sent handle text2 Hprints).
  rewrite Hkey. unfold calls_since, extend. cbn [trace].
  rewrite !drop_app_length. split; reflexivity.
Qed.

Lemma reselect_keeps_conversation_witness :
  let userData :=
    sample_record "selecting" (Some []) (JStr (js "c0")) (-1000000000) in
  let w1 := (app_post session_env (request "1") (world_with userData)).2 in
  let w2 := (app_post session_env (request "hi there") w1).2 in
  creation_calls (calls_since w1 w2) = 0%nat.
Proof.
  intros userData w1 w2.
  apply (reselect_keeps_conversation session_env session_env (request "1")
           (request "hi there") (world_with userData) userData
           (js "1") (js "hi there")).
  - split; [exists sample_phone; split; [reflexivity|discriminate]|].
    split; reflexivity.
  - reflexivity.
  - reflexivity.
  - reflexivity.
  - reflexivity.
  - reflexivity.
  - reflexivity.
  - reflexivity.
  - exists sample_phone; split; [reflexivity|discriminate].
  - reflexivity.
  - reflexivity.
  - reflexivity.
  - intros [H|[H|H]]; discriminate H.
  - vm_compute. discriminate.
Defined.

(** ** The shape of the answers *)

(** X19.  The member [exists] of an answer tells what the lookup of the
    request returned: it is [true] exactly when the store answered the
    lookup with a record.  An answer with [exists = false] has an empty
    choice and the welcome or the request-error text as its reply.
    Every answer to a request with a phone has this shape; the handler
    sends none exactly when it throws, which for a request whose phone
    is a non-empty string happens when the lookup returns a record in
    the state ["selecting"] and the message is no string. *)
Theorem exists_flag_tells_lookup (env : Env) (req : Request) (w : World) :
  phone_given req ->
  (forall resp, (app_post env req w).1 = Normal resp ->
     exists e reply choice,
       resp = {| status := 200; body := ReplyBody e reply choice |}
       /\ (e = true <-> exists userData, found env req w userData)
       /\ (e = false ->
           choice = []
           /\ (reply = JStr MSG_WELCOME \/ reply = JStr MSG_REQUEST_ERROR)))
  /\ ((app_post env req w).1 = Throw <->
      exists userData,
        found env req w userData /\ state userData = js "selecting"
        /\ message_not_string req).
Proof.
  intros Hok.
  destruct (phone_given_not_missing req Hok) as [Hmissing Hstring].
  split.
  - assert (Hnone : store_up env (length (trace w)) = false
                    \/ db w !! request_key req = None ->
                    ~ exists userData, found env req w userData).
    { intros Hnot (userData & _ & Hup & Hdb).
      destruct Hnot as [H|H]; congruence. }
    intros resp.
    destruct (app_post_handled env req w); cbv zeta; simpl fst;
      try contradiction; try discriminate; intros [= <-].
    all: eexists _, _, _; (split; [reflexivity|]); split.
    all: try (split; [discriminate|];
              intros Hex; exfalso; eapply Hnone; eauto; fail).
    all: try (split; [eauto|reflexivity]; fail).
    all: try discriminate.
    all: intros _; split; [reflexivity|tauto].
  - rewrite app_post_throws. unfold throws. split.
    + intros [Hnot|Hthrows]; [contradiction|exact Hthrows].
    + intros Hthrows. now right.
Qed.

Lemma exists_flag_tells_lookup_witness :
  exists e reply choice,
    (app_post session_env (request "hello") empty_world).1
      = Normal {| status := 200; body := ReplyBody e reply choice |}
    /\ e = false.
Proof.
  destruct (exists_flag_tells_lookup session_env (request "hello") empty_world)
    as [Hshape _].
  - exists sample_phone; split; [reflexivity|discriminate].
  - destruct (Hshape _ eq_refl) as (e & reply & choice & Hresp & _ & _).
    exists e, reply, choice. split; [now rewrite <- Hresp|].
    now injection Hresp as <- _ _.
Defined.

(** X20.  In every world the server reaches from an empty table, the
    choice of an answer is one of four values: the empty string,
    ["Customer Service"], ["Sales"] or ["INVALID"]. *)
Theorem reachable_choice_values (env : Env) (req : Request) (w : World)
    (resp : HttpResponse) (e : bool) (reply : json) (choice : list N) :
  reachable w ->
  (app_post env req w).1 = Normal resp ->
  body resp = ReplyBody e reply choice ->
  choice = [] \/ choice = CUSTOMER_SERVICE \/ choice = SALES
  \/ choice = js "INVALID".
Proof.
  intros Hreach.
  assert (Hknown : forall userData a,
    found env req w userData -> bound_to userData a ->
    a = [] \/ a = CUSTOMER_SERVICE \/ a = SALES \/ a = js "INVALID").
  { intros userData a (_ & _ & Hdb) Hbound.
    destruct (reachable_table_ok w Hreach _ userData Hdb a Hbound) as [_ Ha].
    tauto. }
  destruct (app_post_handled env req w) as
    [ | | | | | | userData text choice0 reply0 Hfound Hstate Hmessage Hcase
    | | | | | ];
    cbv zeta; simpl fst; try discriminate; intros [= <-]; simpl body;
    try discriminate; intros [= <- <- <-]; eauto; try tauto.
Qed.

Lemma reachable_choice_values_witness :
  CUSTOMER_SERVICE = [] \/ CUSTOMER_SERVICE = CUSTOMER_SERVICE
  \/ CUSTOMER_SERVICE = SALES \/ CUSTOMER_SERVICE = js "INVALID".
Proof.
  apply (reachable_choice_values session_env (request "hi there") bound_world
           {| status := 200;
              body := ReplyBody true (JStr (js "hi")) CUSTOMER_SERVICE |}
           true (JStr (js "hi")) CUSTOMER_SERVICE).
  - repeat apply reachable_request. apply reachable_start.
  - reflexivity.
  - reflexivity.
Defined.

(** ** Conversation handles *)

(** X21.  [getOrCreateConversationId] returns [null] or a truthy
    handle, never another falsy value.  With a truthy handle in the
    record and no forcing it returns that handle and does nothing.
    When it returns [null] it has written nothing to the table, and in
    any case it makes at most one [create-conversation] call. *)
Theorem getOrCreateConversationId_result (env : Env) (w : World)
    (p a : list N) (userData : UserRecord) (force : bool) :
  let out := getOrCreateConversationId env p a userData force w in
  (out.1 = JNull \/ truthy out.1 = true)
  /\ (force = false -> truthy (handle_for a userData) = true ->
      out = (handle_for a userData, w))
  /\ (out.1 = JNull ->
      db out.2 = db w
      /\ forallb (fun e => negb (writes_handle e)) (calls_since w out.2) = true)
  /\ (creation_calls (calls_since w out.2) <= 1)%nat.
Proof.
  intros out. subst out.
  assert (Hrun := run_getOrCreateConversationId env w (db w) [] p a userData force).
  rewrite <- extend_start in Hrun. cbv zeta in Hrun.
  cbn [length Nat.add app] in Hrun. rewrite Hrun. clear Hrun.
  destruct (negb (truthy (handle_for a userData)) || force) eqn:Hnew.
  - destruct (AGENT_IDS_get a) as [agentId|].
    + destruct (truthy (created_id _)) eqn:Hid; cbn [fst snd];
        rewrite ?calls_since_extend, ?calls_since_same; cbn [db extend].
      * split; [now right|]. split.
        -- intros -> Hhandle. rewrite Hhandle in Hnew. discriminate Hnew.
        -- split; [|unfold creation_calls; simpl; lia].
           intros Hnull. rewrite Hnull in Hid. discriminate Hid.
      * split; [now left|]. split.
        -- intros -> Hhandle. rewrite Hhandle in Hnew. discriminate Hnew.
        -- split; [|unfold creation_calls; simpl; lia].
           intros _. split; reflexivity.
    + cbn [fst snd]. rewrite calls_since_same.
      split; [now left|]. split.
      * intros -> Hhandle. rewrite Hhandle in Hnew. discriminate Hnew.
      * split; [|unfold creation_calls; simpl; lia]. intros _. split; reflexivity.
  - apply orb_false_iff in Hnew as [Hhandle Hforce].
    apply negb_false_iff in Hhandle.
    cbn [fst snd]. rewrite calls_since_same.
    split; [now right|]. split.
    + intros _ _. reflexivity.
    + split; [|unfold creation_calls; simpl; lia]. intros _. split; reflexivity.
Qed.

Lemma getOrCreateConversationId_result_witness :
  getOrCreateConversationId session_env sample_key CUSTOMER_SERVICE
    (bound_record (JStr (js "c1")) "1" 0) false bound_world
  = (JStr (js "c1"), bound_world).
Proof.
  apply (getOrCreateConversationId_result session_env bound_world sample_key
           CUSTOMER_SERVICE (bound_record (JStr (js "c1")) "1" 0) false);
    reflexivity.
Defined.
